(** * RP2040 quadrature encoder firmware (rp2040-encoder/code.py)

    A shallow embedding of the CircuitPython firmware: the module-level
    globals become a record, the body of the [while True] loop becomes a
    step function over that record, and Python exceptions become the error
    side of a small state-and-exception monad (a raised exception keeps the
    mutations performed before it, as in Python). *)

From Stdlib Require Import ZArith QArith Qminmax Bool List String Ascii Lia.
Import ListNotations.

#[local] Set Warnings "-register-all".
Local Open Scope string_scope.
Local Open Scope Z_scope.

(** ** Python values

    The values [json.loads] can return, and so the values the global
    [position] can hold after a reset command.  Python [int] is unbounded
    ([Z]); a Python [float] (a JSON number with a fraction, a
    [time.monotonic()] reading) is idealised as an exact rational: no
    statement below depends on rounding. *)

Inductive pyval : Type :=
| PNone
| PBool (b : bool)
| PInt (z : Z)
| PFloat (q : Q)
| PStr (s : string)
| PList (l : list pyval)
| PDict (d : list (string * pyval)).

Inductive exn : Type :=
| TypeError | IndexError | AttributeError | ValueError | UnicodeError | OSError.

(** [d.get(key, default)] on the items of a dict. *)
Fixpoint dict_get (d : list (string * pyval)) (key : string) (default : pyval) : pyval :=
  match d with
  | [] => default
  | (k, v) :: rest => if String.eqb k key then v else dict_get rest key default
  end.

(** [cmd.get(key, default)]: only a dict has the method. *)
Definition py_get (cmd : pyval) (key : string) (default : pyval) : pyval + exn :=
  match cmd with
  | PDict d => inl (dict_get d key default)
  | _ => inr AttributeError
  end.

(** [v == s] for a string literal [s]. *)
Definition py_eq_str (v : pyval) (s : string) : bool :=
  match v with
  | PStr t => String.eqb t s
  | _ => false
  end.

(** [x += delta] for an [int] [delta]: numbers add ([bool] counts as 0/1),
    everything else raises [TypeError]. *)
Definition py_iadd (x : pyval) (delta : Z) : pyval + exn :=
  match x with
  | PInt z => inl (PInt (z + delta))
  | PBool b => inl (PInt (Z.b2z b + delta))
  | PFloat q => inl (PFloat (Qred (q + inject_Z delta)))
  | PNone | PStr _ | PList _ | PDict _ => inr TypeError
  end.

(** Truth value of a Python object, as taken by the [value] setter of a
    [DigitalInOut]. *)
Definition truthy (v : pyval) : bool :=
  match v with
  | PNone => false
  | PBool b => b
  | PInt z => negb (z =? 0)
  | PFloat q => negb (Qeq_bool q 0)
  | PStr s => negb (String.eqb s EmptyString)
  | PList l => match l with [] => false | _ => true end
  | PDict d => match d with [] => false | _ => true end
  end.

(** [table[index]] on a Python list: negative indices count from the end,
    anything outside raises [IndexError]. *)
Definition py_getitem (table : list Z) (index : Z) : Z + exn :=
  let n := Z.of_nat (List.length table) in
  let i := if index <? 0 then index + n else index in
  if (0 <=? i) && (i <? n)
  then match nth_error table (Z.to_nat i) with
       | Some v => inl v
       | None => inr IndexError
       end
  else inr IndexError.

(** [str.strip()]: the ASCII whitespace characters. *)
Definition is_space (c : ascii) : bool :=
  let n := nat_of_ascii c in
  (Nat.eqb n 32 || (Nat.leb 9 n && Nat.leb n 13))%bool.

Fixpoint lstrip (l : list ascii) : list ascii :=
  match l with
  | c :: rest => if is_space c then lstrip rest else l
  | [] => []
  end.

Definition strip (s : string) : string :=
  string_of_list_ascii
    (rev (lstrip (rev (lstrip (list_ascii_of_string s))))).

(** ** A reader for the protocol's JSON

    [json.loads] is a library function and stays a parameter of the
    firmware below.  The closed examples need one concrete reader; this one
    covers the fragment the protocol's own lines are written in: objects,
    arrays, strings without escapes, integers, [true], [false], [null].
    As in Python, a repeated key keeps its latest value. *)

Definition dquote : ascii := ascii_of_nat 34.

Fixpoint dict_set (d : list (string * pyval)) (key : string) (v : pyval)
  : list (string * pyval) :=
  match d with
  | [] => [(key, v)]
  | (k, x) :: rest =>
      if String.eqb k key then (k, v) :: rest else (k, x) :: dict_set rest key v
  end.

Fixpoint read_string (l : list ascii) : option (string * list ascii) :=
  match l with
  | [] => None
  | c :: rest =>
      if Ascii.eqb c dquote then Some (EmptyString, rest)
      else if Ascii.eqb c "\"%char then None
      else match read_string rest with
           | Some (s, rest') => Some (String c s, rest')
           | None => None
           end
  end.

Definition digit_of (c : ascii) : option Z :=
  let n := nat_of_ascii c in
  if (Nat.leb 48 n && Nat.leb n 57)%bool then Some (Z.of_nat n - 48) else None.

Fixpoint read_digits (l : list ascii) (acc : Z) : Z * list ascii :=
  match l with
  | c :: rest =>
      match digit_of c with
      | Some d => read_digits rest (10 * acc + d)
      | None => (acc, l)
      end
  | [] => (acc, [])
  end.

Definition read_nat (l : list ascii) : option (Z * list ascii) :=
  match l with
  | c :: rest =>
      match digit_of c with
      | Some 0 => match rest with
                  | c' :: _ => match digit_of c' with
                               | Some _ => None
                               | None => Some (0, rest)
                               end
                  | [] => Some (0, rest)
                  end
      | Some d => Some (read_digits rest d)
      | None => None
      end
  | [] => None
  end.

Definition read_word (word : string) (v : pyval) (l : list ascii)
  : option (pyval * list ascii) :=
  let n := String.length word in
  if String.eqb (string_of_list_ascii (firstn n l)) word
  then Some (v, skipn n l) else None.

Fixpoint read_value (fuel : nat) (l : list ascii) {struct fuel}
  : option (pyval * list ascii) :=
  match fuel with
  | O => None
  | S fuel' =>
      match lstrip l with
      | [] => None
      | c :: rest =>
          if Ascii.eqb c "{"%char then
            match lstrip rest with
            | c' :: rest' =>
                if Ascii.eqb c' "}"%char then Some (PDict [], rest')
                else read_members fuel' rest []
            | [] => None
            end
          else if Ascii.eqb c "["%char then
            match lstrip rest with
            | c' :: rest' =>
                if Ascii.eqb c' "]"%char then Some (PList [], rest')
                else read_elements fuel' rest []
            | [] => None
            end
          else if Ascii.eqb c dquote then
            match read_string rest with
            | Some (s, rest') => Some (PStr s, rest')
            | None => None
            end
          else if Ascii.eqb c "-"%char then
            match read_nat rest with
            | Some (n, rest') => Some (PInt (- n), rest')
            | None => None
            end
          else if Ascii.eqb c "t"%char then read_word "true" (PBool true) (c :: rest)
          else if Ascii.eqb c "f"%char then read_word "false" (PBool false) (c :: rest)
          else if Ascii.eqb c "n"%char then read_word "null" PNone (c :: rest)
          else match read_nat (c :: rest) with
               | Some (n, rest') => Some (PInt n, rest')
               | None => None
               end
      end
  end
with read_members (fuel : nat) (l : list ascii) (d : list (string * pyval))
  {struct fuel} : option (pyval * list ascii) :=
  match fuel with
  | O => None
  | S fuel' =>
      match lstrip l with
      | c :: rest =>
          if Ascii.eqb c dquote then
            match read_string rest with
            | Some (key, rest1) =>
                match lstrip rest1 with
                | c1 :: rest2 =>
                    if Ascii.eqb c1 ":"%char then
                      match read_value fuel' rest2 with
                      | Some (v, rest3) =>
                          match lstrip rest3 with
                          | c3 :: rest4 =>
                              if Ascii.eqb c3 ","%char
                              then read_members fuel' rest4 (dict_set d key v)
                              else if Ascii.eqb c3 "}"%char
                              then Some (PDict (dict_set d key v), rest4)
                              else None
                          | [] => None
                          end
                      | None => None
                      end
                    else None
                | [] => None
                end
            | None => None
            end
          else None
      | [] => None
      end
  end
with read_elements (fuel : nat) (l : list ascii) (acc : list pyval)
  {struct fuel} : option (pyval * list ascii) :=
  match fuel with
  | O => None
  | S fuel' =>
      match read_value fuel' l with
      | Some (v, rest) =>
          match lstrip rest with
          | c :: rest' =>
              if Ascii.eqb c ","%char then read_elements fuel' rest' (acc ++ [v])
              else if Ascii.eqb c "]"%char then Some (PList (acc ++ [v]), rest')
              else None
          | [] => None
          end
      | None => None
      end
  end.

Definition json_reader (line : string) : option pyval :=
  let l := list_ascii_of_string line in
  match read_value (S (List.length l)) l with
  | Some (v, rest) => match lstrip rest with [] => Some v | _ => None end
  | None => None
  end.

(** [quoted s] is [s] between double quotes. *)
Definition quoted (s : string) : string :=
  String dquote (s ++ String dquote EmptyString).

(** ** Globals and the serial port *)

Record world : Type := mkWorld {
  position : pyval;                 (* global [position] *)
  last_state : Z;                   (* global [last_state] *)
  accumulated_delta : Z;            (* global [accumulated_delta] *)
  last_send_time : Q;               (* global [last_send_time] *)
  led_value : bool;                 (* [led.value] *)
  usb_data : bool;                  (* truth value of [usb_cdc.data] *)
  tx_faults : list bool;            (* whether the coming writes raise *)
  tx_log : list (pyval * bool)      (* messages handed to [write], with
                                       whether the write went through *)
}.

Definition set_position (p : pyval) (w : world) : world :=
  mkWorld p (last_state w) (accumulated_delta w) (last_send_time w)
          (led_value w) (usb_data w) (tx_faults w) (tx_log w).
Definition set_last_state (s : Z) (w : world) : world :=
  mkWorld (position w) s (accumulated_delta w) (last_send_time w)
          (led_value w) (usb_data w) (tx_faults w) (tx_log w).
Definition set_accumulated_delta (d : Z) (w : world) : world :=
  mkWorld (position w) (last_state w) d (last_send_time w)
          (led_value w) (usb_data w) (tx_faults w) (tx_log w).
Definition set_last_send_time (t : Q) (w : world) : world :=
  mkWorld (position w) (last_state w) (accumulated_delta w) t
          (led_value w) (usb_data w) (tx_faults w) (tx_log w).
Definition set_led (b : bool) (w : world) : world :=
  mkWorld (position w) (last_state w) (accumulated_delta w) (last_send_time w)
          b (usb_data w) (tx_faults w) (tx_log w).
Definition set_tx (faults : list bool) (log : list (pyval * bool)) (w : world) : world :=
  mkWorld (position w) (last_state w) (accumulated_delta w) (last_send_time w)
          (led_value w) (usb_data w) faults log.

(** ** State and exception monad *)

Definition M (A : Type) : Type := world -> (A + exn) * world.

Definition ret {A} (x : A) : M A := fun w => (inl x, w).
Definition raise {A} (e : exn) : M A := fun w => (inr e, w).
Definition bind {A B} (m : M A) (k : A -> M B) : M B :=
  fun w => match m w with
           | (inl x, w') => k x w'
           | (inr e, w') => (inr e, w')
           end.
Definition get : M world := fun w => (inl w, w).
Definition modify (f : world -> world) : M unit := fun w => (inl tt, f w).
Definition lift {A} (r : A + exn) : M A := fun w => (r, w).

(** [try: body / except Exception: pass] *)
Definition try_pass (body : M unit) : M unit :=
  fun w => match body w with
           | (inl _, w') => (inl tt, w')
           | (inr _, w') => (inl tt, w')
           end.

Declare Scope py_scope.
Delimit Scope py_scope with py.
Notation "x <- m ;; k" := (bind m (fun x => k))
  (at level 61, m at next level, right associativity) : py_scope.
Notation "m ;; k" := (bind m (fun _ => k))
  (at level 61, right associativity) : py_scope.
Local Open Scope py_scope.

(** ** The firmware *)

Definition SEND_INTERVAL : Q := 5 # 100.

Definition ENCODER_TABLE : list Z :=
  [ 0; 1; -1; 0;
    -1; 0; 0; 1;
    1; 0; 0; -1;
    0; -1; 1; 0 ].

(** [(a << 1) | b] on two pin readings. *)
Definition encoder_state (a b : bool) : Z :=
  Z.lor (Z.shiftl (Z.b2z a) 1) (Z.b2z b).

Definition encoder_msg (delta : Z) (pos : pyval) : pyval :=
  PDict [("type", PStr "encoder"); ("delta", PInt delta); ("position", pos)].

Definition pong_msg (pos : pyval) : pyval :=
  PDict [("type", PStr "pong"); ("position", pos)].

(** [usb_cdc.data.write((json.dumps(msg) + "\n").encode())]: the message
    is logged with the outcome the port gives to this write. *)
Definition write (msg : pyval) : M unit :=
  fun w => match tx_faults w with
           | true :: rest => (inr OSError, set_tx rest (tx_log w ++ [(msg, false)]) w)
           | false :: rest => (inl tt, set_tx rest (tx_log w ++ [(msg, true)]) w)
           | [] => (inl tt, set_tx [] (tx_log w ++ [(msg, true)]) w)
           end.

Definition send_encoder_data (delta : Z) (pos : pyval) : M unit :=
  w <- get ;;
  if usb_data w
  then try_pass (write (encoder_msg delta pos))
  else ret tt.

Definition handle_command (cmd : pyval) : M unit :=
  cmd_type <- lift (py_get cmd "type" (PStr EmptyString)) ;;
  if py_eq_str cmd_type "reset" then
    p <- lift (py_get cmd "position" (PInt 0)) ;;
    modify (set_position p) ;;
    w <- get ;;
    send_encoder_data 0 (position w) ;;
    modify (set_led true) ;;
    modify (set_led false)
  else if py_eq_str cmd_type "ping" then
    w <- get ;;
    let msg := pong_msg (position w) in
    if usb_data w then write msg else ret tt
  else if py_eq_str cmd_type "led" then
    v <- lift (py_get cmd "on" (PBool false)) ;;
    modify (set_led (truthy v))
  else ret tt.

Section Firmware.

(** [json.loads]: [None] stands for the [ValueError] of a line that is not
    JSON.  The library function is a parameter of the firmware. *)
Variable json_loads : string -> option pyval.

(** [inbound]: [None] when [in_waiting] is 0; otherwise the outcome of
    [readline().decode()], [None] when that raises. *)
Definition check_for_commands (inbound : option (option string)) : M unit :=
  w <- get ;;
  match inbound with
  | Some received =>
      if usb_data w then
        try_pass
          (line <- match received with
                   | Some text => ret (strip text)
                   | None => raise UnicodeError
                   end ;;
           if negb (String.eqb line EmptyString) then
             cmd <- match json_loads line with
                    | Some v => ret v
                    | None => raise ValueError
                    end ;;
             handle_command cmd
           else ret tt)
      else ret tt
  | None => ret tt
  end.

(** Lines 121-139 of the loop body: sample the pins, decode. *)
Definition poll_encoder (a b : bool) : M unit :=
  w <- get ;;
  let current_state := encoder_state a b in
  if negb (current_state =? last_state w) then
    let index := Z.lor (Z.shiftl (last_state w) 2) current_state in
    delta <- lift (py_getitem ENCODER_TABLE index) ;;
    (if negb (delta =? 0) then
       p <- lift (py_iadd (position w) delta) ;;
       modify (set_position p) ;;
       modify (set_accumulated_delta (accumulated_delta w + delta)) ;;
       modify (set_led true)
     else ret tt) ;;
    modify (set_last_state current_state)
  else modify (set_led false).

(** Lines 141-146: the periodic report. *)
Definition send_periodic (now : Q) : M unit :=
  w <- get ;;
  if negb (accumulated_delta w =? 0)
     && Qle_bool SEND_INTERVAL (now - last_send_time w)
  then
    send_encoder_data (accumulated_delta w) (position w) ;;
    modify (set_accumulated_delta 0) ;;
    modify (set_last_send_time now)
  else ret tt.

(** What one pass of the loop reads from outside. *)
Record sample : Type := mkSample {
  pin_a : bool;
  pin_b : bool;
  clock : Q;                          (* [time.monotonic()] *)
  inbound : option (option string)
}.

Definition loop_body (i : sample) : M unit :=
  poll_encoder (pin_a i) (pin_b i) ;;
  send_periodic (clock i) ;;
  check_for_commands (inbound i).

(** The [while True] loop over a finite prefix of samples; it stops at the
    first uncaught exception. *)
Fixpoint run (samples : list sample) : M unit :=
  match samples with
  | [] => ret tt
  | i :: rest => loop_body i ;; run rest
  end.

(** The globals as the module initialises them before the loop. *)
Definition boot (a b : bool) (t0 : Q) (usb : bool) (faults : list bool) : world :=
  mkWorld (PInt 0) (encoder_state a b) 0 t0 false usb faults [].

End Firmware.

(** ** Vocabulary of the statements *)

(** The transition table as the specification lists it, by index. *)
Definition spec_table (index : Z) : Z :=
  match index with
  | 0 => 0 | 1 => 1 | 2 => -1 | 3 => 0
  | 4 => -1 | 5 => 0 | 6 => 0 | 7 => 1
  | 8 => 1 | 9 => 0 | 10 => 0 | 11 => -1
  | 12 => 0 | 13 => -1 | 14 => 1 | 15 => 0
  | _ => 0
  end.

Definition transition_index (previous current : Z) : Z :=
  Z.lor (Z.shiftl previous 2) current.

(** Outcome the port gives to the next write, and the world after it. *)
Definition next_write_ok (w : world) : bool :=
  match tx_faults w with
  | true :: _ => false
  | _ => true
  end.

Definition after_write (msg : pyval) (w : world) : world :=
  set_tx (tl (tx_faults w)) (tx_log w ++ [(msg, next_write_ok w)]) w.

(** On the wire a periodic report is an encoder message whose delta is not
    the integer 0: the reply to a reset always carries delta 0. *)
Definition is_motion_report (entry : pyval * bool) : bool :=
  match fst entry with
  | PDict d =>
      py_eq_str (dict_get d "type" PNone) "encoder"
      && match dict_get d "delta" (PInt 0) with
         | PInt z => negb (z =? 0)
         | _ => true
         end
  | _ => false
  end.

Definition motion_reports (log : list (pyval * bool)) : list (pyval * bool) :=
  filter is_motion_report log.

(** The step the table gives for a move from state [previous] to the pins
    [(a, b)], and the sum of the steps along a list of samples. *)
Definition step_delta (previous : Z) (a b : bool) : Z :=
  spec_table (transition_index previous (encoder_state a b)).

Fixpoint net_delta (previous : Z) (samples : list sample) : Z :=
  match samples with
  | [] => 0
  | i :: rest =>
      step_delta previous (pin_a i) (pin_b i)
      + net_delta (encoder_state (pin_a i) (pin_b i)) rest
  end.

(** The decoder state after a list of samples. *)
Fixpoint end_state (previous : Z) (samples : list sample) : Z :=
  match samples with
  | [] => previous
  | i :: rest => end_state (encoder_state (pin_a i) (pin_b i)) rest
  end.

(** Every sample of the list is taken less than the interval after [t]. *)
Definition within_interval (t : Q) (samples : list sample) : Prop :=
  Forall (fun i => (clock i - t < SEND_INTERVAL)%Q) samples.

(** Worlds the loop can be in: the booted one and every world a pass of
    the loop leaves behind. *)
Inductive reachable (json_loads : string -> option pyval) : world -> Prop :=
| reach_boot a b t0 usb faults :
    reachable json_loads (boot a b t0 usb faults)
| reach_step w i r w' :
    reachable json_loads w ->
    loop_body json_loads i w = (r, w') ->
    reachable json_loads w'.

(** The command variant of the specification, and [decode] written after
    its section 4.4: strip the line, parse it, read [type]. *)
Inductive Command : Type :=
| Reset (new_position : pyval)
| Ping
| SetLed (on : pyval).

Definition decode (json_loads : string -> option pyval) (line : string)
  : option Command :=
  let stripped := strip line in
  if String.eqb stripped EmptyString then None
  else
    match json_loads stripped with
    | Some (PDict d) =>
        match dict_get d "type" (PStr EmptyString) with
        | PStr t =>
            if String.eqb t "reset" then Some (Reset (dict_get d "position" (PInt 0)))
            else if String.eqb t "ping" then Some Ping
            else if String.eqb t "led" then Some (SetLed (dict_get d "on" (PBool false)))
            else None
        | _ => None
        end
    | _ => None
    end.

(** What [handle_command] runs for each command: its three branches. *)
Definition dispatch (c : Command) : M unit :=
  match c with
  | Reset p =>
      modify (set_position p) ;;
      send_encoder_data 0 p ;;
      modify (set_led true) ;;
      modify (set_led false)
  | Ping =>
      w <- get ;;
      if usb_data w then write (pong_msg (position w)) else ret tt
  | SetLed v => modify (set_led (truthy v))
  end.

(** Lines and worlds the examples use. *)
Definition reset_line (position_text : string) : string :=
  "{" ++ quoted "type" ++ ":" ++ quoted "reset" ++ ","
      ++ quoted "position" ++ ":" ++ position_text ++ "}".

Definition ping_line : string :=
  "{" ++ quoted "type" ++ ":" ++ quoted "ping" ++ "}".

Definition unknown_line : string :=
  "{" ++ quoted "type" ++ ":" ++ quoted "unknown" ++ "}".

(** Booted with both pins low at time 0, the data port present. *)
Definition w_boot : world := boot false false 0 true [].

(** Three steps pending since time 0, position 7. *)
Definition w_pending : world := mkWorld (PInt 7) 0 3 0 false true [] [].

(** The same, with a port that raises on the next write. *)
Definition w_pending_faulty : world := mkWorld (PInt 7) 0 3 0 false true [true] [].

(** The command a pass receives, if any: nothing waiting, a failed read
    and a line that decodes to nothing all give [None]. *)
Definition command_of (json_loads : string -> option pyval)
  (received : option (option string)) : option Command :=
  match received with
  | Some (Some text) => decode json_loads text
  | Some None | None => None
  end.

(** What the port is handed for a command. *)
Definition replies (c : option Command) (w : world) : list (pyval * bool) :=
  if usb_data w then
    match c with
    | Some (Reset p) => [(encoder_msg 0 p, next_write_ok w)]
    | Some Ping => [(pong_msg (position w), next_write_ok w)]
    | Some (SetLed _) | None => []
    end
  else [].

(** The values [+=] accepts on the left of an [int]. *)
Definition is_number (v : pyval) : bool :=
  match v with
  | PInt _ | PBool _ | PFloat _ => true
  | PNone | PStr _ | PList _ | PDict _ => false
  end.

(** A sample whose command, if it is a reset, asks for a number. *)
Definition numeric_reset (json_loads : string -> option pyval) (i : sample) : bool :=
  match command_of json_loads (inbound i) with
  | Some (Reset p) => is_number p
  | _ => true
  end.

(** A sample whose command is not a reset. *)
Definition no_reset (json_loads : string -> option pyval) (i : sample) : bool :=
  match command_of json_loads (inbound i) with
  | Some (Reset _) => false
  | _ => true
  end.

(** The delta a logged message reports: the [delta] field of an encoder
    message, 0 for anything else. *)
Definition reported_delta (entry : pyval * bool) : Z :=
  match fst entry with
  | PDict d =>
      if py_eq_str (dict_get d "type" PNone) "encoder"
      then match dict_get d "delta" (PInt 0) with
           | PInt z => z
           | _ => 0
           end
      else 0
  | _ => 0
  end.

Fixpoint reported_total (log : list (pyval * bool)) : Z :=
  match log with
  | [] => 0
  | entry :: rest => reported_delta entry + reported_total rest
  end.

(** The two shapes of message the protocol has. *)
Definition is_protocol_entry (entry : pyval * bool) : Prop :=
  (exists delta pos, fst entry = encoder_msg delta pos)
  \/ (exists pos, fst entry = pong_msg pos).

(** What the statements mean by a line and its fields, said without the
    functions of the code: whitespace by its character codes, a stripped
    line as a core between two blank margins, a field as the binding of
    its key (or the default when the key is absent). *)
Definition whitespace (c : ascii) : Prop :=
  In (nat_of_ascii c) [9; 10; 11; 12; 13; 32]%nat.

Definition blank (s : string) : Prop :=
  Forall whitespace (list_ascii_of_string s).

Definition trimmed (s : string) : Prop :=
  (forall c rest, list_ascii_of_string s = c :: rest -> ~ whitespace c)
  /\ (forall front c,
        list_ascii_of_string s = (front ++ [c])%list -> ~ whitespace c).

Definition framed (text pre core post : string) : Prop :=
  blank pre /\ blank post /\ trimmed core /\ core <> EmptyString
  /\ text = pre ++ core ++ post.

Definition field_is (d : list (string * pyval)) (key : string)
  (default v : pyval) : Prop :=
  (exists d1 d2,
     d = (d1 ++ (key, v) :: d2)%list /\ ~ In key (map fst d1))
  \/ (~ In key (map fst d) /\ v = default).

(** The command a line stands for, case by case as the protocol has it. *)
Inductive line_yields (json_loads : string -> option pyval) (text : string)
  : option Command -> Prop :=
| yields_none_blank pre post :
    blank pre -> blank post -> text = pre ++ post ->
    line_yields json_loads text None
| yields_none_unparsable pre core post :
    framed text pre core post ->
    json_loads core = None ->
    line_yields json_loads text None
| yields_none_not_object pre core post v :
    framed text pre core post ->
    json_loads core = Some v ->
    (forall d, v <> PDict d) ->
    line_yields json_loads text None
| yields_reset pre core post d p :
    framed text pre core post ->
    json_loads core = Some (PDict d) ->
    field_is d "type" (PStr EmptyString) (PStr "reset") ->
    field_is d "position" (PInt 0) p ->
    line_yields json_loads text (Some (Reset p))
| yields_ping pre core post d :
    framed text pre core post ->
    json_loads core = Some (PDict d) ->
    field_is d "type" (PStr EmptyString) (PStr "ping") ->
    line_yields json_loads text (Some Ping)
| yields_led pre core post d v :
    framed text pre core post ->
    json_loads core = Some (PDict d) ->
    field_is d "type" (PStr EmptyString) (PStr "led") ->
    field_is d "on" (PBool false) v ->
    line_yields json_loads text (Some (SetLed v))
| yields_none_other_type pre core post d ty :
    framed text pre core post ->
    json_loads core = Some (PDict d) ->
    field_is d "type" (PStr EmptyString) ty ->
    ty <> PStr "reset" -> ty <> PStr "ping" -> ty <> PStr "led" ->
    line_yields json_loads text None.

(** The deltas the host has received: those of the logged messages whose
    write went through. *)
Definition delivered_delta (entry : pyval * bool) : Z :=
  if snd entry then reported_delta entry else 0.

Fixpoint delivered_total (log : list (pyval * bool)) : Z :=
  match log with
  | [] => 0
  | entry :: rest => delivered_delta entry + delivered_total rest
  end.

(** ** Equations of the building blocks *)

Ltac unfold_m :=
  unfold bind, ret, raise, get, modify, lift, try_pass in *.

Lemma write_eq msg w :
  write msg w
  = (if next_write_ok w then inl tt else inr OSError, after_write msg w).
Proof.
  unfold write, after_write, next_write_ok.
  destruct (tx_faults w) as [|[] rest]; reflexivity.
Qed.

Lemma send_encoder_data_eq delta pos w :
  send_encoder_data delta pos w
  = (inl tt, if usb_data w then after_write (encoder_msg delta pos) w else w).
Proof.
  unfold send_encoder_data. unfold_m.
  destruct (usb_data w); [|reflexivity].
  rewrite write_eq. destruct (next_write_ok w); reflexivity.
Qed.

Lemma send_periodic_eq now w :
  send_periodic now w
  = (inl tt,
     if negb (accumulated_delta w =? 0)
        && Qle_bool SEND_INTERVAL (now - last_send_time w)
     then set_last_send_time now
            (set_accumulated_delta 0
               (if usb_data w
                then after_write (encoder_msg (accumulated_delta w) (position w)) w
                else w))
     else w).
Proof.
  unfold send_periodic.
  unfold bind at 1. unfold get at 1.
  destruct (negb (accumulated_delta w =? 0)
            && Qle_bool SEND_INTERVAL (now - last_send_time w)); [|reflexivity].
  unfold bind. rewrite send_encoder_data_eq. reflexivity.
Qed.

Lemma send_periodic_nothing_pending now w :
  accumulated_delta w = 0 -> send_periodic now w = (inl tt, w).
Proof. intros H. rewrite send_periodic_eq, H. reflexivity. Qed.

Lemma encoder_state_range a b : 0 <= encoder_state a b < 4.
Proof. destruct a, b; vm_compute; split; congruence. Qed.

Lemma range4_cases z : 0 <= z < 4 -> z = 0 \/ z = 1 \/ z = 2 \/ z = 3.
Proof. lia. Qed.

Lemma table_lookup previous a b :
  0 <= previous < 4 ->
  py_getitem ENCODER_TABLE (transition_index previous (encoder_state a b))
  = inl (step_delta previous a b).
Proof.
  intros H. apply range4_cases in H.
  destruct H as [-> | [-> | [-> | ->]]]; destruct a, b; reflexivity.
Qed.

Lemma same_state_delta previous a b :
  0 <= previous < 4 -> encoder_state a b = previous -> step_delta previous a b = 0.
Proof.
  intros H E. subst previous. destruct a, b; reflexivity.
Qed.

(** The decoding block, branch by branch. *)
Lemma poll_encoder_eq a b w :
  poll_encoder a b w
  = let current_state := encoder_state a b in
    if current_state =? last_state w then (inl tt, set_led false w)
    else
      match py_getitem ENCODER_TABLE
              (transition_index (last_state w) current_state) with
      | inr e => (inr e, w)
      | inl delta =>
          if delta =? 0 then (inl tt, set_last_state current_state w)
          else
            match py_iadd (position w) delta with
            | inr e => (inr e, w)
            | inl p =>
                (inl tt,
                 set_last_state current_state
                   (set_led true
                      (set_accumulated_delta (accumulated_delta w + delta)
                         (set_position p w))))
            end
      end.
Proof.
  unfold poll_encoder, transition_index. unfold_m. cbv zeta.
  destruct (encoder_state a b =? last_state w); cbv [negb]; [reflexivity|].
  destruct (py_getitem ENCODER_TABLE _) as [delta|e]; [|reflexivity].
  destruct (delta =? 0); cbv [negb]; [reflexivity|].
  destruct (py_iadd (position w) delta); reflexivity.
Qed.

(** On an integer position the block raises nothing and adds the table's
    step to both counters. *)
Lemma poll_encoder_int a b w p :
  0 <= last_state w < 4 -> position w = PInt p ->
  exists w',
    poll_encoder a b w = (inl tt, w')
    /\ position w' = PInt (p + step_delta (last_state w) a b)
    /\ accumulated_delta w' = accumulated_delta w + step_delta (last_state w) a b
    /\ last_state w' = encoder_state a b
    /\ last_send_time w' = last_send_time w
    /\ usb_data w' = usb_data w
    /\ tx_faults w' = tx_faults w
    /\ tx_log w' = tx_log w.
Proof.
  intros Hr Hp. rewrite poll_encoder_eq. cbv zeta.
  destruct (encoder_state a b =? last_state w) eqn:E.
  - apply Z.eqb_eq in E.
    rewrite (same_state_delta _ _ _ Hr E), !Z.add_0_r.
    eexists; split; [reflexivity|]. cbn. repeat split; auto.
  - rewrite (table_lookup _ a b Hr).
    destruct (step_delta (last_state w) a b =? 0) eqn:D.
    + apply Z.eqb_eq in D. rewrite D, !Z.add_0_r.
      eexists; split; [reflexivity|]. cbn. repeat split; auto.
    + rewrite Hp. cbn [py_iadd].
      eexists; split; [reflexivity|]. cbn. repeat split; auto.
Qed.

(** Whatever the position holds, the block leaves the port and the send
    time alone; when it raises nothing, the pending counter has moved by
    the table's step. *)
Lemma poll_encoder_frame a b w r w' :
  poll_encoder a b w = (r, w') ->
  last_send_time w' = last_send_time w
  /\ usb_data w' = usb_data w
  /\ tx_faults w' = tx_faults w
  /\ tx_log w' = tx_log w
  /\ (last_state w' = last_state w \/ last_state w' = encoder_state a b)
  /\ (r = inl tt ->
      0 <= last_state w < 4 ->
      accumulated_delta w' = accumulated_delta w + step_delta (last_state w) a b
      /\ last_state w' = encoder_state a b).
Proof.
  rewrite poll_encoder_eq. cbv zeta.
  destruct (encoder_state a b =? last_state w) eqn:E.
  - intros H; inversion H; subst; clear H. cbn.
    apply Z.eqb_eq in E.
    repeat split; auto. rewrite (same_state_delta _ _ _ H0 E). lia.
  - destruct (py_getitem ENCODER_TABLE _) as [delta|e] eqn:L.
    + destruct (delta =? 0) eqn:D.
      * intros H; inversion H; subst; clear H. cbn.
        repeat split; auto.
        rewrite (table_lookup _ a b H0) in L. inversion L.
        apply Z.eqb_eq in D. lia.
      * destruct (py_iadd (position w) delta) as [p'|e] eqn:A.
        -- intros H; inversion H; subst; clear H. cbn.
           repeat split; auto.
           rewrite (table_lookup _ a b H0) in L. inversion L. reflexivity.
        -- intros H; inversion H; subst; clear H.
           repeat split; auto; discriminate.
    + intros H; inversion H; subst; clear H.
      repeat split; auto; discriminate.
Qed.

(** [handle_command], branch by branch. *)
Lemma handle_command_eq cmd w :
  handle_command cmd w
  = match cmd with
    | PDict d =>
        let cmd_type := dict_get d "type" (PStr EmptyString) in
        if py_eq_str cmd_type "reset" then
          let p := dict_get d "position" (PInt 0) in
          (inl tt,
           set_led false
             (set_led true
                (if usb_data w
                 then after_write (encoder_msg 0 p) (set_position p w)
                 else set_position p w)))
        else if py_eq_str cmd_type "ping" then
          if usb_data w
          then (if next_write_ok w then inl tt else inr OSError,
                after_write (pong_msg (position w)) w)
          else (inl tt, w)
        else if py_eq_str cmd_type "led" then
          (inl tt, set_led (truthy (dict_get d "on" (PBool false))) w)
        else (inl tt, w)
    | _ => (inr AttributeError, w)
    end.
Proof.
  unfold handle_command.
  destruct cmd; try reflexivity.
  unfold bind at 1. unfold lift at 1. cbn [py_get]. cbv zeta.
  destruct (py_eq_str _ "reset").
  - unfold bind at 1. unfold lift at 1.
    unfold bind at 1. unfold modify at 1.
    unfold bind at 1. unfold get at 1.
    unfold bind at 1. rewrite send_encoder_data_eq.
    unfold_m. reflexivity.
  - destruct (py_eq_str _ "ping").
    + unfold_m. destruct (usb_data w); [|reflexivity].
      apply write_eq.
    + destruct (py_eq_str _ "led"); reflexivity.
Qed.

Lemma after_write_fields msg w :
  position (after_write msg w) = position w
  /\ last_state (after_write msg w) = last_state w
  /\ accumulated_delta (after_write msg w) = accumulated_delta w
  /\ last_send_time (after_write msg w) = last_send_time w
  /\ usb_data (after_write msg w) = usb_data w.
Proof. repeat split. Qed.

Lemma motion_reports_app l1 l2 :
  motion_reports (l1 ++ l2) = (motion_reports l1 ++ motion_reports l2)%list.
Proof. apply filter_app. Qed.

(** A command changes neither the send time, nor the pending counter, nor
    the decoder state, and what it writes is not a periodic report. *)
Lemma handle_command_frame cmd w r w' :
  handle_command cmd w = (r, w') ->
  last_send_time w' = last_send_time w
  /\ accumulated_delta w' = accumulated_delta w
  /\ last_state w' = last_state w
  /\ usb_data w' = usb_data w
  /\ motion_reports (tx_log w') = motion_reports (tx_log w).
Proof.
  rewrite handle_command_eq.
  destruct cmd; try (intros H; inversion H; subst; repeat split; reflexivity).
  cbv zeta.
  destruct (py_eq_str _ "reset").
  - intros H; inversion H; subst; clear H.
    destruct (usb_data w) eqn:U; cbn; rewrite ?U; repeat split; auto.
    rewrite motion_reports_app. cbn. apply app_nil_r.
  - destruct (py_eq_str _ "ping").
    + destruct (usb_data w) eqn:U; intros H; inversion H; subst; clear H;
        cbn; repeat split; auto.
      rewrite motion_reports_app. cbn. apply app_nil_r.
    + destruct (py_eq_str _ "led");
        intros H; inversion H; subst; clear H; cbn; repeat split; auto.
Qed.

Lemma dispatch_eq c w :
  dispatch c w
  = match c with
    | Reset p =>
        (inl tt,
         set_led false
           (set_led true
              (if usb_data w
               then after_write (encoder_msg 0 p) (set_position p w)
               else set_position p w)))
    | Ping =>
        if usb_data w
        then (if next_write_ok w then inl tt else inr OSError,
              after_write (pong_msg (position w)) w)
        else (inl tt, w)
    | SetLed v => (inl tt, set_led (truthy v) w)
    end.
Proof.
  destruct c; cbn [dispatch].
  - unfold bind at 1. unfold modify at 1.
    unfold bind at 1. rewrite send_encoder_data_eq. reflexivity.
  - unfold_m. destruct (usb_data w); [apply write_eq | reflexivity].
  - reflexivity.
Qed.

Lemma Qlt_le_bool_false x y : (x < y)%Q -> Qle_bool y x = false.
Proof.
  intros H. destruct (Qle_bool y x) eqn:E; [|reflexivity].
  apply Qle_bool_iff in E. exfalso. exact (Qlt_not_le _ _ H E).
Qed.

(** [strip] and [dict_get] against the plain descriptions. *)
Lemma is_space_whitespace c : is_space c = true <-> whitespace c.
Proof.
  unfold is_space, whitespace. cbn [In].
  rewrite orb_true_iff, andb_true_iff, Nat.eqb_eq, !Nat.leb_le. lia.
Qed.

Lemma list_ascii_of_string_app a b :
  list_ascii_of_string (a ++ b)
  = (list_ascii_of_string a ++ list_ascii_of_string b)%list.
Proof.
  induction a as [|c a IH]; cbn; [reflexivity | rewrite IH; reflexivity].
Qed.

Lemma string_of_list_ascii_app l1 l2 :
  string_of_list_ascii (l1 ++ l2)
  = string_of_list_ascii l1 ++ string_of_list_ascii l2.
Proof.
  induction l1 as [|c l1 IH]; cbn; [reflexivity | rewrite IH; reflexivity].
Qed.

Lemma lstrip_blank_app pre l :
  Forall whitespace pre -> lstrip (pre ++ l) = lstrip l.
Proof.
  induction 1 as [|c pre Hc _ IH]; cbn [app lstrip]; [reflexivity|].
  apply is_space_whitespace in Hc. rewrite Hc. exact IH.
Qed.

Lemma lstrip_head c l : ~ whitespace c -> lstrip (c :: l) = c :: l.
Proof.
  intros H. cbn [lstrip].
  destruct (is_space c) eqn:E; [|reflexivity].
  apply is_space_whitespace in E. contradiction.
Qed.

Lemma lstrip_decompose l :
  exists pre,
    l = (pre ++ lstrip l)%list
    /\ Forall whitespace pre
    /\ forall c rest, lstrip l = c :: rest -> ~ whitespace c.
Proof.
  induction l as [|c l (pre & E & F & H)].
  - exists []. split; [reflexivity|]. split; [constructor | discriminate].
  - cbn [lstrip]. destruct (is_space c) eqn:S.
    + exists (c :: pre). cbn [app]. rewrite <- E.
      split; [reflexivity|]. split; [|exact H].
      constructor; [apply is_space_whitespace; exact S | exact F].
    + exists []. split; [reflexivity|]. split; [constructor|].
      intros c' rest' Eq. inversion Eq; subst.
      intros W. apply is_space_whitespace in W. congruence.
Qed.

Lemma snoc_cases {A} (l : list A) :
  l = [] \/ exists front z, l = (front ++ [z])%list.
Proof.
  destruct (rev l) as [|z r] eqn:E.
  - left. apply (f_equal (@rev A)) in E. rewrite rev_involutive in E. exact E.
  - right. exists (rev r), z.
    apply (f_equal (@rev A)) in E. rewrite rev_involutive in E. exact E.
Qed.

Lemma strip_blank pre post :
  blank pre -> blank post -> strip (pre ++ post) = EmptyString.
Proof.
  unfold blank, strip. intros Hpre Hpost.
  rewrite list_ascii_of_string_app, (lstrip_blank_app _ _ Hpre).
  replace (lstrip (list_ascii_of_string post)) with (@nil ascii).
  - reflexivity.
  - rewrite <- (app_nil_r (list_ascii_of_string post)).
    rewrite (lstrip_blank_app _ _ Hpost). reflexivity.
Qed.

Lemma strip_framed text pre core post :
  framed text pre core post -> strip text = core.
Proof.
  intros (Hpre & Hpost & (Hhead & Hlast) & Hne & ->).
  unfold blank in *. unfold strip.
  rewrite !list_ascii_of_string_app, (lstrip_blank_app _ _ Hpre).
  destruct (list_ascii_of_string core) as [|c rest] eqn:Ec.
  - exfalso. apply Hne.
    rewrite <- (string_of_list_ascii_of_string core), Ec. reflexivity.
  - cbn [app]. rewrite (lstrip_head _ _ (Hhead _ _ eq_refl)).
    change (c :: (rest ++ list_ascii_of_string post))%list
      with ((c :: rest) ++ list_ascii_of_string post)%list.
    rewrite rev_app_distr.
    rewrite (lstrip_blank_app _ _ (Forall_rev Hpost)).
    destruct (snoc_cases (c :: rest)) as [E | (front & z & E)];
      [discriminate|].
    rewrite E, rev_app_distr. cbn [rev app].
    rewrite (lstrip_head _ _ (Hlast _ _ E)).
    cbn [rev]. rewrite rev_involutive, <- E, <- Ec.
    apply string_of_list_ascii_of_string.
Qed.

Lemma strip_frames text :
  strip text = EmptyString /\ (exists pre post,
                                 blank pre /\ blank post /\ text = pre ++ post)
  \/ exists pre post, framed text pre (strip text) post.
Proof.
  destruct (lstrip_decompose (list_ascii_of_string text)) as (pre & E1 & F1 & H1).
  set (l1 := lstrip (list_ascii_of_string text)) in *.
  destruct (lstrip_decompose (rev l1)) as (pre2 & E2 & F2 & H2).
  set (rc := lstrip (rev l1)) in *.
  assert (l1 = (rev rc ++ rev pre2)%list) as El1
    by (rewrite <- rev_app_distr, <- E2, rev_involutive; reflexivity).
  assert (strip text = string_of_list_ascii (rev rc)) as Es by reflexivity.
  assert (text = string_of_list_ascii pre ++ string_of_list_ascii (rev rc)
                 ++ string_of_list_ascii (rev pre2)) as Et.
  { rewrite <- !string_of_list_ascii_app, <- El1, <- E1.
    symmetry. apply string_of_list_ascii_of_string. }
  assert (blank (string_of_list_ascii pre)) as Bpre
    by (unfold blank; rewrite list_ascii_of_string_of_list_ascii; exact F1).
  assert (blank (string_of_list_ascii (rev pre2))) as Bpost
    by (unfold blank; rewrite list_ascii_of_string_of_list_ascii;
        apply Forall_rev; exact F2).
  destruct rc as [|z r] eqn:Erc.
  - left. split; [exact Es|].
    exists (string_of_list_ascii pre), (string_of_list_ascii (rev pre2)).
    split; [exact Bpre|]. split; [exact Bpost | exact Et].
  - right.
    exists (string_of_list_ascii pre), (string_of_list_ascii (rev pre2)).
    rewrite Es. unfold framed, trimmed.
    rewrite list_ascii_of_string_of_list_ascii.
    split; [exact Bpre|]. split; [exact Bpost|]. split; [split|split].
    + intros c rest Eq. apply (H1 c (rest ++ rev pre2)%list).
      rewrite El1, Eq. reflexivity.
    + intros front c Eq. apply (H2 c (rev front)).
      apply (f_equal (@rev ascii)) in Eq.
      rewrite rev_involutive, rev_app_distr in Eq. exact Eq.
    + intros Eq. apply (f_equal list_ascii_of_string) in Eq.
      rewrite list_ascii_of_string_of_list_ascii in Eq.
      cbn [rev] in Eq. destruct (rev r); discriminate.
    + exact Et.
Qed.

Lemma dict_get_absent d key default :
  ~ In key (map fst d) -> dict_get d key default = default.
Proof.
  induction d as [|[k x] rest IH]; cbn [map fst In dict_get]; [reflexivity|].
  intros H. destruct (String.eqb_spec k key) as [E|_].
  - exfalso. apply H. left. exact E.
  - apply IH. intros Hin. apply H. right. exact Hin.
Qed.

Lemma dict_get_field d key default v :
  field_is d key default v -> dict_get d key default = v.
Proof.
  intros [(d1 & d2 & -> & Hnot) | (Hnot & ->)].
  - induction d1 as [|[k x] rest IH]; cbn [app dict_get].
    + rewrite String.eqb_refl. reflexivity.
    + cbn [map fst In] in Hnot. destruct (String.eqb_spec k key) as [E|_].
      * exfalso. apply Hnot. left. exact E.
      * apply IH. intros Hin. apply Hnot. right. exact Hin.
  - apply dict_get_absent. exact Hnot.
Qed.

Lemma field_is_dict_get d key default :
  field_is d key default (dict_get d key default).
Proof.
  induction d as [|[k x] rest IH]; cbn [dict_get].
  - right. split; [intros [] | reflexivity].
  - destruct (String.eqb_spec k key) as [E|N].
    + subst k. left. exists [], rest. split; [reflexivity | intros []].
    + destruct IH as [(d1 & d2 & E & Hnot) | (Hnot & E)].
      * left. exists ((k, x) :: d1), d2. cbn [app map fst In].
        split; [rewrite <- E; reflexivity|].
        intros [H|H]; [exact (N H) | exact (Hnot H)].
      * right. split; [|exact E].
        cbn [map fst In]. intros [H|H]; [exact (N H) | exact (Hnot H)].
Qed.

Section Properties.

Variable json_loads : string -> option pyval.

Lemma check_for_commands_eq inbound w :
  check_for_commands json_loads inbound w
  = (inl tt,
     match inbound with
     | Some (Some text) =>
         if usb_data w then
           if String.eqb (strip text) EmptyString then w
           else match json_loads (strip text) with
                | Some cmd => snd (handle_command cmd w)
                | None => w
                end
         else w
     | Some None | None => w
     end).
Proof.
  unfold check_for_commands.
  unfold bind at 1. unfold get at 1.
  destruct inbound as [[text|]|]; [| |reflexivity].
  - destruct (usb_data w); [|reflexivity].
    unfold try_pass, bind, ret, raise.
    destruct (String.eqb (strip text) EmptyString); cbv [negb]; [reflexivity|].
    destruct (json_loads (strip text)) as [cmd|]; [|reflexivity].
    destruct (handle_command cmd w) as [[[]|e] w1]; reflexivity.
  - destruct (usb_data w); reflexivity.
Qed.

Lemma check_for_commands_frame inbound w :
  let w' := snd (check_for_commands json_loads inbound w) in
  last_send_time w' = last_send_time w
  /\ accumulated_delta w' = accumulated_delta w
  /\ last_state w' = last_state w
  /\ usb_data w' = usb_data w
  /\ motion_reports (tx_log w') = motion_reports (tx_log w).
Proof.
  rewrite check_for_commands_eq. cbn [snd].
  destruct inbound as [[text|]|]; [|repeat split|repeat split].
  destruct (usb_data w) eqn:U; [|repeat split; exact U].
  destruct (String.eqb (strip text) EmptyString); [repeat split; exact U|].
  destruct (json_loads (strip text)) as [cmd|]; [|repeat split; exact U].
  destruct (handle_command cmd w) as [r w1] eqn:H.
  apply handle_command_frame in H. rewrite U in H. exact H.
Qed.

Lemma loop_body_eq i w :
  loop_body json_loads i w
  = match poll_encoder (pin_a i) (pin_b i) w with
    | (inl _, w1) =>
        check_for_commands json_loads (inbound i)
          (snd (send_periodic (clock i) w1))
    | (inr e, w1) => (inr e, w1)
    end.
Proof.
  unfold loop_body. unfold bind at 1.
  destruct (poll_encoder (pin_a i) (pin_b i) w) as [[[]|e] w1]; [|reflexivity].
  unfold bind. rewrite send_periodic_eq. reflexivity.
Qed.

(** [last_state] stays a 2-bit value along the loop. *)
Lemma loop_body_range i w r w' :
  0 <= last_state w < 4 ->
  loop_body json_loads i w = (r, w') ->
  0 <= last_state w' < 4.
Proof.
  intros Hr. rewrite loop_body_eq.
  destruct (poll_encoder (pin_a i) (pin_b i) w) as [[[]|e] w1] eqn:P;
    apply poll_encoder_frame in P;
    destruct P as (_ & _ & _ & _ & Hs & _).
  - rewrite check_for_commands_eq. intros H; inversion H; subst; clear H.
    pose proof (check_for_commands_frame (inbound i)
                  (snd (send_periodic (clock i) w1))) as F.
    rewrite check_for_commands_eq in F. cbn [snd] in F.
    destruct F as (_ & _ & F & _). rewrite F.
    rewrite send_periodic_eq. cbn [snd].
    assert (0 <= last_state w1 < 4) as Hw1
      by (destruct Hs as [-> | ->]; [exact Hr | apply encoder_state_range]).
    destruct (_ && _); [|exact Hw1].
    destruct (usb_data w1); exact Hw1.
  - intros H; inversion H; subst; clear H.
    destruct Hs as [-> | ->]; [exact Hr | apply encoder_state_range].
Qed.

Lemma reachable_range w : reachable json_loads w -> 0 <= last_state w < 4.
Proof.
  induction 1 as [a b t0 usb faults | w i r w' _ IH Hstep].
  - apply encoder_state_range.
  - exact (loop_body_range _ _ _ _ IH Hstep).
Qed.

(** A pass whose clock is within the interval of the last send: no
    periodic report, and the pending counter takes the table's step. *)
Lemma loop_body_quiet i w r w' :
  0 <= last_state w < 4 ->
  (clock i - last_send_time w < SEND_INTERVAL)%Q ->
  loop_body json_loads i w = (r, w') ->
  last_send_time w' = last_send_time w
  /\ usb_data w' = usb_data w
  /\ motion_reports (tx_log w') = motion_reports (tx_log w)
  /\ (r = inl tt ->
      accumulated_delta w'
      = accumulated_delta w + step_delta (last_state w) (pin_a i) (pin_b i)
      /\ last_state w' = encoder_state (pin_a i) (pin_b i)).
Proof.
  intros Hr Hq. rewrite loop_body_eq.
  destruct (poll_encoder (pin_a i) (pin_b i) w) as [[[]|e] w1] eqn:P;
    apply poll_encoder_frame in P;
    destruct P as (Pt & Pu & _ & Pl & _ & Pd).
  - intros H.
    pose proof (check_for_commands_frame (inbound i)
                  (snd (send_periodic (clock i) w1))) as F.
    rewrite H in F. cbn [snd] in F.
    rewrite send_periodic_eq in F. cbn [snd] in F.
    rewrite Pt, (Qlt_le_bool_false _ _ Hq), andb_false_r in F.
    destruct F as (Ft & Fd & Fs & Fu & Fl).
    rewrite Ft, Fu, Fl, Fd, Fs, Pl.
    split; [exact Pt|]. split; [exact Pu|]. split; [reflexivity|].
    intros _. exact (Pd eq_refl Hr).
  - intros H; inversion H; subst; clear H. rewrite Pl.
    repeat split; auto; discriminate.
Qed.

Lemma run_quiet samples : forall w r w',
  0 <= last_state w < 4 ->
  within_interval (last_send_time w) samples ->
  run json_loads samples w = (r, w') ->
  last_send_time w' = last_send_time w
  /\ usb_data w' = usb_data w
  /\ motion_reports (tx_log w') = motion_reports (tx_log w)
  /\ 0 <= last_state w' < 4
  /\ (r = inl tt ->
      accumulated_delta w'
      = accumulated_delta w + net_delta (last_state w) samples).
Proof.
  induction samples as [|i rest IH]; intros w r w' Hr Hq.
  - cbn. intros H; inversion H; subst. repeat split; auto; lia.
  - cbn [run net_delta]. unfold bind at 1.
    inversion Hq as [|? ? Hi Hrest]; subst.
    destruct (loop_body json_loads i w) as [[[]|e] w1] eqn:B.
    + pose proof (loop_body_range _ _ _ _ Hr B) as Hr1.
      apply (loop_body_quiet _ _ _ _ Hr Hi) in B.
      destruct B as (Bt & Bu & Bl & Bd). destruct (Bd eq_refl) as (Bd1 & Bd2).
      intros H. rewrite <- Bt in Hrest.
      apply (IH _ _ _ Hr1 Hrest) in H.
      destruct H as (Ht & Hu & Hl & Hs & Hd).
      rewrite Ht, Hu, Hl, Bt, Bu, Bl. repeat split; auto; try lia.
      intros ->. rewrite (Hd eq_refl), Bd1, Bd2. lia.
    + pose proof (loop_body_range _ _ _ _ Hr B) as Hr1.
      apply (loop_body_quiet _ _ _ _ Hr Hi) in B.
      destruct B as (Bt & Bu & Bl & _).
      intros H; inversion H; subst; clear H. rewrite Bl.
      repeat split; auto; try lia. discriminate.
Qed.

Lemma is_motion_encoder delta pos ok :
  is_motion_report (encoder_msg delta pos, ok) = negb (delta =? 0).
Proof. reflexivity. Qed.

Lemma net_delta_app samples : forall previous j,
  net_delta previous (samples ++ [j])
  = net_delta previous samples
    + step_delta (end_state previous samples) (pin_a j) (pin_b j).
Proof.
  induction samples as [|i rest IH]; intros previous j; cbn.
  - lia.
  - rewrite IH. lia.
Qed.

Lemma run_end_state samples : forall w w',
  0 <= last_state w < 4 ->
  run json_loads samples w = (inl tt, w') ->
  last_state w' = end_state (last_state w) samples.
Proof.
  induction samples as [|i rest IH]; intros w w' Hr.
  - cbn. intros H; inversion H; reflexivity.
  - cbn [run end_state]. unfold bind at 1.
    destruct (loop_body json_loads i w) as [[[]|e] w1] eqn:B; [|discriminate].
    pose proof (loop_body_range _ _ _ _ Hr B) as Hr1.
    intros H. rewrite (IH _ _ Hr1 H). f_equal.
    rewrite loop_body_eq in B.
    destruct (poll_encoder (pin_a i) (pin_b i) w) as [[[]|e] w0] eqn:P;
      [|discriminate].
    apply poll_encoder_frame in P. destruct P as (_ & _ & _ & _ & _ & Pd).
    destruct (Pd eq_refl Hr) as (_ & Ps).
    pose proof (check_for_commands_frame (inbound i)
                  (snd (send_periodic (clock i) w0))) as F.
    rewrite B in F. cbn [snd] in F. destruct F as (_ & _ & F & _).
    rewrite F, send_periodic_eq. cbn [snd].
    destruct (_ && _); [|exact Ps].
    destruct (usb_data w0); exact Ps.
Qed.

(** A pass taken once the interval has elapsed, with a non-zero pending
    total after decoding: one periodic report carrying the total. *)
Lemma loop_body_fires i w w2 :
  0 <= last_state w < 4 ->
  (SEND_INTERVAL <= clock i - last_send_time w)%Q ->
  accumulated_delta w + step_delta (last_state w) (pin_a i) (pin_b i) <> 0 ->
  usb_data w = true ->
  loop_body json_loads i w = (inl tt, w2) ->
  accumulated_delta w2 = 0
  /\ last_send_time w2 = clock i
  /\ exists pos ok,
       motion_reports (tx_log w2)
       = (motion_reports (tx_log w)
          ++ [(encoder_msg
                 (accumulated_delta w
                  + step_delta (last_state w) (pin_a i) (pin_b i)) pos, ok)])%list.
Proof.
  intros Hr Hq Hd U. rewrite loop_body_eq.
  destruct (poll_encoder (pin_a i) (pin_b i) w) as [[[]|e] w1] eqn:P;
    [|discriminate].
  apply poll_encoder_frame in P.
  destruct P as (Pt & Pu & _ & Pl & _ & Pd).
  destruct (Pd eq_refl Hr) as (Pa & _).
  intros H.
  pose proof (check_for_commands_frame (inbound i)
                (snd (send_periodic (clock i) w1))) as F.
  rewrite H in F. cbn [snd] in F.
  rewrite send_periodic_eq in F. cbn [snd] in F.
  apply Qle_bool_iff in Hq.
  rewrite Pt, Hq, Pa, Pu, U in F.
  apply Z.eqb_neq in Hd. rewrite Hd in F. cbn in F.
  destruct F as (Ft & Fd & _ & _ & Fl).
  split; [exact Fd|]. split; [exact Ft|].
  exists (position w1), (next_write_ok w1).
  rewrite Fl, motion_reports_app, Pl. f_equal.
  unfold motion_reports. cbn [filter].
  rewrite is_motion_encoder, Hd. reflexivity.
Qed.


(** After a drain at time [t]: the passes taken within the interval send
    no periodic report and add up the table's steps, and the first pass
    taken after the interval reports their sum, once. *)
Lemma next_report_after t w0 first samples r w1 :
  0 <= last_state w0 < 4 ->
  last_send_time w0 = t ->
  accumulated_delta w0 = 0 ->
  within_interval t samples ->
  run json_loads samples (snd (check_for_commands json_loads first w0)) = (r, w1) ->
  last_send_time w1 = t
  /\ motion_reports (tx_log w1) = motion_reports (tx_log w0)
  /\ (r = inl tt ->
      accumulated_delta w1 = net_delta (last_state w0) samples
      /\ forall j w2,
           (SEND_INTERVAL <= clock j - t)%Q ->
           net_delta (last_state w0) (samples ++ [j]) <> 0 ->
           usb_data w0 = true ->
           loop_body json_loads j w1 = (inl tt, w2) ->
           accumulated_delta w2 = 0
           /\ last_send_time w2 = clock j
           /\ exists pos ok,
                motion_reports (tx_log w2)
                = (motion_reports (tx_log w0)
                   ++ [(encoder_msg (net_delta (last_state w0) (samples ++ [j])) pos,
                        ok)])%list).
Proof.
  intros Hr Ht Ha Hq Hrun.
  pose proof (check_for_commands_frame first w0) as F.
  destruct F as (Ft & Fd & Fs & Fu & Fl).
  set (wc := snd (check_for_commands json_loads first w0)) in *.
  assert (0 <= last_state wc < 4) as Hrc by (rewrite Fs; exact Hr).
  assert (within_interval (last_send_time wc) samples) as Hqc
    by (rewrite Ft, Ht; exact Hq).
  pose proof (run_quiet _ _ _ _ Hrc Hqc Hrun) as (Rt & Ru & Rl & Rs & Rd).
  split; [congruence|]. split; [congruence|].
  intros ->. specialize (Rd eq_refl).
  pose proof (run_end_state _ _ _ Hrc Hrun) as Re.
  rewrite Fs in Re. rewrite Fd, Ha, Fs in Rd. cbn in Rd.
  split; [exact Rd|].
  intros j w2 Hj Hn U Hbody.
  rewrite net_delta_app in *. rewrite <- Re, <- Rd in *.
  assert (last_send_time w1 = t) as Ht1 by congruence.
  rewrite <- Ht1 in Hj.
  assert (usb_data w1 = true) as U1 by congruence.
  destruct (loop_body_fires _ _ _ Rs Hj Hn U1 Hbody) as (Ba & Bt & pos & ok & Bl).
  split; [exact Ba|]. split; [exact Bt|].
  exists pos, ok. rewrite Bl, Rl, Fl. reflexivity.
Qed.


(** ** The claims *)

(** C9. In every world the loop can reach and for every pin pair sampled
    there, the transition index lies in [0, 16) and the table lookup finds
    an entry. *)
Theorem C9_index_in_bounds (w : world) (a b : bool) :
  reachable json_loads w ->
  0 <= transition_index (last_state w) (encoder_state a b) < 16
  /\ exists delta,
       py_getitem ENCODER_TABLE
         (transition_index (last_state w) (encoder_state a b)) = inl delta.
Proof.
  intros R. apply reachable_range in R.
  split.
  - apply range4_cases in R.
    destruct R as [-> | [-> | [-> | ->]]]; destruct a, b; vm_compute;
      split; congruence.
  - eexists. apply (table_lookup _ a b R).
Qed.

(** The handling of a received line through [decode] and [dispatch]. *)
Lemma check_for_commands_text (text : string) (w : world) :
  check_for_commands json_loads (Some (Some text)) w
  = (inl tt,
     if usb_data w then
       match decode json_loads text with
       | Some c => snd (dispatch c w)
       | None => w
       end
     else w).
Proof.
  rewrite check_for_commands_eq. unfold decode. cbv zeta.
  destruct (usb_data w) eqn:U; [|reflexivity].
  destruct (String.eqb (strip text) EmptyString); [reflexivity|].
  destruct (json_loads (strip text)) as [cmd|]; [|reflexivity].
  rewrite handle_command_eq.
  destruct cmd; try reflexivity.
  cbv zeta.
  destruct (dict_get d "type" (PStr EmptyString)); try reflexivity.
  cbn [py_eq_str].
  destruct (String.eqb s "reset"); [rewrite dispatch_eq, U; reflexivity|].
  destruct (String.eqb s "ping"); [rewrite dispatch_eq, U; reflexivity|].
  destruct (String.eqb s "led"); [rewrite dispatch_eq; reflexivity|].
  reflexivity.
Qed.

Lemma line_yields_decode text c :
  line_yields json_loads text c -> decode json_loads text = c.
Proof.
  intros H. unfold decode. cbv zeta.
  destruct H as [pre post Bpre Bpost ->
                | pre core post F J
                | pre core post v F J Hv
                | pre core post d q F J Ty Po
                | pre core post d F J Ty
                | pre core post d v F J Ty On
                | pre core post d ty F J Ty N1 N2 N3].
  - rewrite (strip_blank _ _ Bpre Bpost). reflexivity.
  - rewrite (strip_framed _ _ _ _ F).
    destruct F as (_ & _ & _ & Hne & _). apply String.eqb_neq in Hne.
    rewrite Hne, J. reflexivity.
  - rewrite (strip_framed _ _ _ _ F).
    destruct F as (_ & _ & _ & Hne & _). apply String.eqb_neq in Hne.
    rewrite Hne, J. destruct v; try reflexivity. exfalso. exact (Hv d eq_refl).
  - rewrite (strip_framed _ _ _ _ F).
    destruct F as (_ & _ & _ & Hne & _). apply String.eqb_neq in Hne.
    rewrite Hne, J, (dict_get_field _ _ _ _ Ty), (dict_get_field _ _ _ _ Po).
    reflexivity.
  - rewrite (strip_framed _ _ _ _ F).
    destruct F as (_ & _ & _ & Hne & _). apply String.eqb_neq in Hne.
    rewrite Hne, J, (dict_get_field _ _ _ _ Ty). reflexivity.
  - rewrite (strip_framed _ _ _ _ F).
    destruct F as (_ & _ & _ & Hne & _). apply String.eqb_neq in Hne.
    rewrite Hne, J, (dict_get_field _ _ _ _ Ty), (dict_get_field _ _ _ _ On).
    reflexivity.
  - rewrite (strip_framed _ _ _ _ F).
    destruct F as (_ & _ & _ & Hne & _). apply String.eqb_neq in Hne.
    rewrite Hne, J, (dict_get_field _ _ _ _ Ty).
    destruct ty; try reflexivity.
    destruct (String.eqb_spec s "reset") as [->|_]; [congruence|].
    destruct (String.eqb_spec s "ping") as [->|_]; [congruence|].
    destruct (String.eqb_spec s "led") as [->|_]; [congruence|].
    reflexivity.
Qed.

Lemma line_yields_total text : exists c, line_yields json_loads text c.
Proof.
  destruct (strip_frames text)
    as [(_ & pre & post & Bpre & Bpost & E) | (pre & post & F)].
  - exists None. exact (yields_none_blank _ _ pre post Bpre Bpost E).
  - destruct (json_loads (strip text)) as [v|] eqn:J.
    + destruct v as [ | b | z | q | t | l | d ];
        try (exists None;
             apply (yields_none_not_object _ _ pre (strip text) post _ F J);
             intros d'; discriminate).
      pose proof (field_is_dict_get d "type" (PStr EmptyString)) as Ty.
      destruct (dict_get d "type" (PStr EmptyString)) as [ | b | z | q | t | l | d' ];
        try (exists None;
             apply (yields_none_other_type _ _ pre (strip text) post d _ F J Ty);
             discriminate).
      destruct (String.eqb_spec t "reset") as [->|N1].
      { eexists.
        exact (yields_reset _ _ pre (strip text) post d _ F J Ty
                 (field_is_dict_get d "position" (PInt 0))). }
      destruct (String.eqb_spec t "ping") as [->|N2].
      { eexists. exact (yields_ping _ _ pre (strip text) post d F J Ty). }
      destruct (String.eqb_spec t "led") as [->|N3].
      { eexists.
        exact (yields_led _ _ pre (strip text) post d _ F J Ty
                 (field_is_dict_get d "on" (PBool false))). }
      exists None.
      apply (yields_none_other_type _ _ pre (strip text) post d _ F J Ty);
        congruence.
    + exists None. exact (yields_none_unparsable _ _ pre (strip text) post F J).
Qed.

(** C6. Every received line is one of the protocol's cases, read off its
    core between blank margins: a reset (with the [position] field, 0 when
    absent), a ping, an LED command (with the [on] field, false when
    absent), or nothing (blank, not JSON, not an object, no [type],
    another [type]).  [decode] returns that case, and
    [check_for_commands] raises nothing and does what the case says: a
    reset stores its position, a ping is answered with a pong, an LED
    command sets the LED, and nothing leaves the world as it was. *)
Theorem C6_decode_then_dispatch (text : string) (w : world) :
  (exists c, line_yields json_loads text c)
  /\ forall c,
       line_yields json_loads text c ->
       let w' := snd (check_for_commands json_loads (Some (Some text)) w) in
       decode json_loads text = c
       /\ check_for_commands json_loads (Some (Some text)) w
          = (inl tt,
             if usb_data w then
               match c with
               | Some cmd => snd (dispatch cmd w)
               | None => w
               end
             else w)
       /\ (usb_data w = true ->
           match c with
           | Some (Reset p) => position w' = p
           | Some Ping =>
               tx_log w'
               = (tx_log w
                  ++ [(PDict [("type", PStr "pong"); ("position", position w)],
                       next_write_ok w)])%list
               /\ position w' = position w
           | Some (SetLed v) => led_value w' = truthy v
           | None => w' = w
           end).
Proof.
  split; [apply line_yields_total|].
  intros c H. cbv zeta. apply line_yields_decode in H.
  rewrite check_for_commands_text, H. cbn [snd].
  split; [reflexivity|]. split; [reflexivity|].
  intros U. rewrite U.
  destruct c as [[p| |v]|]; [| | |reflexivity];
    rewrite dispatch_eq, ?U; cbn; auto.
Qed.


(** C8. When the port raises on the write of a periodic report, the block
    still returns normally, has made that one write attempt only, and has
    cleared the pending counter and recorded the time; the next periodic
    report carries the steps decoded after the failed attempt and nothing
    of the lost one. *)
Theorem C8_failed_write_is_dropped (now : Q) (w : world) :
  0 <= last_state w < 4 ->
  accumulated_delta w <> 0 ->
  (SEND_INTERVAL <= now - last_send_time w)%Q ->
  usb_data w = true ->
  next_write_ok w = false ->
  let w0 := snd (send_periodic now w) in
  fst (send_periodic now w) = inl tt
  /\ tx_log w0
     = (tx_log w ++ [(encoder_msg (accumulated_delta w) (position w), false)])%list
  /\ accumulated_delta w0 = 0
  /\ last_send_time w0 = now
  /\ position w0 = position w
  /\ forall first samples w1 j w2,
       within_interval now samples ->
       run json_loads samples (snd (check_for_commands json_loads first w0))
       = (inl tt, w1) ->
       (SEND_INTERVAL <= clock j - now)%Q ->
       net_delta (last_state w) (samples ++ [j]) <> 0 ->
       loop_body json_loads j w1 = (inl tt, w2) ->
       exists pos ok,
         motion_reports (tx_log w2)
         = (motion_reports (tx_log w0)
            ++ [(encoder_msg (net_delta (last_state w) (samples ++ [j])) pos,
                 ok)])%list.
Proof.
  intros Hr Ha Hq U Hfail w0. subst w0.
  pose proof Hq as Hq'. pose proof Ha as Ha'.
  apply Qle_bool_iff in Hq'. apply Z.eqb_neq in Ha'.
  rewrite send_periodic_eq. cbn [fst snd]. rewrite Ha', Hq', U. cbn [negb andb].
  split; [reflexivity|].
  split; [cbn; rewrite Hfail; reflexivity|].
  do 3 (split; [reflexivity|]).
  intros first samples w1 j w2 Hw Hrun Hj Hn Hbody.
  match type of Hrun with
  | run _ _ (snd (check_for_commands _ _ ?x)) = _ => set (w0 := x) in *
  end.
  assert (0 <= last_state w0 < 4) as Hr0 by exact Hr.
  destruct (next_report_after now w0 first samples _ w1 Hr0 eq_refl eq_refl Hw Hrun)
    as (_ & _ & Hnext).
  destruct (Hnext eq_refl) as (_ & Hreport).
  destruct (Hreport j w2 Hj Hn U Hbody) as (_ & _ & pos & ok & Hlog).
  exists pos, ok. exact Hlog.
Qed.

(** C10. No command touches [last_send_time], and a ping touches neither
    the position nor the pending counter; so the interval keeps running
    from the last periodic report: here a pong goes out at time 1 and a
    periodic report 1/100 s later, less than the interval apart. *)
Theorem C10_replies_leave_schedule (line : string) :
  String.eqb (strip line) EmptyString = false ->
  json_loads (strip line) = Some (PDict [("type", PStr "ping")]) ->
  (forall cmd w,
     last_send_time (snd (handle_command cmd w)) = last_send_time w)
  /\ (forall d w,
        py_eq_str (dict_get d "type" (PStr EmptyString)) "ping" = true ->
        position (snd (handle_command (PDict d) w)) = position w
        /\ accumulated_delta (snd (handle_command (PDict d) w))
           = accumulated_delta w)
  /\ exists w i1 i2,
       let w1 := snd (loop_body json_loads i1 w) in
       let w2 := snd (loop_body json_loads i2 w1) in
       tx_log w = []
       /\ tx_log w1 = [(pong_msg (PInt 0), true)]
       /\ tx_log w2 = [(pong_msg (PInt 0), true); (encoder_msg 1 (PInt 1), true)]
       /\ motion_reports (tx_log w2) = [(encoder_msg 1 (PInt 1), true)]
       /\ (clock i2 - clock i1 < SEND_INTERVAL)%Q.
Proof.
  intros Hne Hping.
  split; [|split].
  - intros cmd w.
    destruct (handle_command cmd w) as [r w'] eqn:H.
    apply handle_command_frame in H. apply H.
  - intros d w H. rewrite handle_command_eq. cbv zeta.
    destruct (py_eq_str _ "reset") eqn:R.
    + destruct (dict_get d "type" (PStr EmptyString)); try discriminate.
      cbn [py_eq_str] in *. apply String.eqb_eq in R. subst. discriminate.
    + rewrite H. destruct (usb_data w); split; reflexivity.
  - exists (boot false false 0 true []),
           (mkSample false false 1 (Some (Some line))),
           (mkSample false true (101 # 100) None).
    cbv zeta.
    assert (loop_body json_loads
              (mkSample false false 1 (Some (Some line)))
              (boot false false 0 true [])
            = (inl tt,
               mkWorld (PInt 0) 0 0 0 false true []
                       [(pong_msg (PInt 0), true)])) as E1.
    { rewrite loop_body_eq. cbn [pin_a pin_b clock inbound].
      replace (poll_encoder false false (boot false false 0 true []))
        with (@inl unit exn tt, boot false false 0 true []) by reflexivity.
      cbv beta iota.
      replace (snd (send_periodic 1 (boot false false 0 true [])))
        with (boot false false 0 true []) by reflexivity.
      rewrite check_for_commands_eq. cbn [usb_data boot].
      rewrite Hne, Hping. reflexivity. }
    rewrite E1. cbn [snd].
    repeat split.
Qed.

End Properties.

(** C1. For each of the 16 pairs of a previous and a current 2-bit state
    the decoding block looks up and applies exactly the listed table
    value, at index [previous * 4 + current]; on a same-state pair the
    value is 0 and [last_state] is not written. *)
Theorem C1_decoder_table (pa pb a b : bool) (w : world) (p : Z) :
  last_state w = encoder_state pa pb ->
  position w = PInt p ->
  let previous := encoder_state pa pb in
  let current := encoder_state a b in
  let index := transition_index previous current in
  index = previous * 4 + current
  /\ py_getitem ENCODER_TABLE index = inl (spec_table index)
  /\ exists w',
       poll_encoder a b w = (inl tt, w')
       /\ position w' = PInt (p + spec_table index)
       /\ accumulated_delta w' = accumulated_delta w + spec_table index
       /\ last_state w' = current
       /\ (current = previous -> spec_table index = 0 /\ w' = set_led false w).
Proof.
  intros Hs Hp previous current index.
  assert (0 <= last_state w < 4) as Hr
    by (rewrite Hs; apply encoder_state_range).
  split; [destruct pa, pb, a, b; reflexivity|].
  split; [apply (table_lookup _ a b); apply encoder_state_range|].
  destruct (poll_encoder_int a b w p Hr Hp)
    as (w' & Hrun & Hpos & Hacc & Hlast & _).
  exists w'. subst previous current index. rewrite <- Hs.
  repeat split; auto.
  - apply same_state_delta; assumption.
  - rewrite poll_encoder_eq in Hrun. cbv zeta in Hrun.
    rewrite H, Z.eqb_refl in Hrun. congruence.
Qed.

(** C5. With nothing pending the periodic block sends nothing and changes
    nothing, whatever the clock says. *)
Theorem C5_no_report_without_pending (now : Q) (w : world) :
  accumulated_delta w = 0 ->
  send_periodic now w = (inl tt, w).
Proof.
  exact (send_periodic_nothing_pending now w).
Qed.

(** C2, as the code has it. A reset command stores the requested position
    (0 when the field is absent) and leaves the pending counter as it
    was. *)
Theorem C2_reset_sets_position_keeps_pending (d : list (string * pyval)) (w : world) :
  py_eq_str (dict_get d "type" (PStr EmptyString)) "reset" = true ->
  let w' := snd (handle_command (PDict d) w) in
  fst (handle_command (PDict d) w) = inl tt
  /\ position w' = dict_get d "position" (PInt 0)
  /\ accumulated_delta w' = accumulated_delta w.
Proof.
  intros H. rewrite handle_command_eq. cbv zeta. rewrite H.
  destruct (usb_data w); repeat split.
Qed.

(** C7. With the data port present, a reset command hands the port the
    message [{"type": "encoder", "delta": 0, "position": p}] with the new
    position [p], and a ping command hands it
    [{"type": "pong", "position": position}] with the current position, in
    the very call that handles the command: neither the clock nor
    [last_send_time] enters. *)
Theorem C7_immediate_replies (d : list (string * pyval)) (w : world) :
  usb_data w = true ->
  let cmd_type := dict_get d "type" (PStr EmptyString) in
  let w' := snd (handle_command (PDict d) w) in
  (py_eq_str cmd_type "reset" = true ->
   tx_log w'
   = (tx_log w
      ++ [(PDict [("type", PStr "encoder");
                  ("delta", PInt 0);
                  ("position", dict_get d "position" (PInt 0))],
           next_write_ok w)])%list
   /\ position w' = dict_get d "position" (PInt 0))
  /\ (py_eq_str cmd_type "ping" = true ->
      tx_log w'
      = (tx_log w
         ++ [(PDict [("type", PStr "pong"); ("position", position w)],
              next_write_ok w)])%list
      /\ position w' = position w).
Proof.
  intros U cmd_type w'. subst cmd_type w'.
  rewrite handle_command_eq. cbv zeta. rewrite U.
  split; intros H.
  - rewrite H. split; reflexivity.
  - destruct (py_eq_str _ "reset") eqn:R.
    + destruct (dict_get d "type" (PStr EmptyString)); try discriminate.
      cbn [py_eq_str] in *. apply String.eqb_eq in R. subst. discriminate.
    + rewrite H. split; reflexivity.
Qed.

(** ** Closed instances *)

(** The decode examples of the specification, on the concrete reader. *)
Example decode_reset_5 :
  decode json_reader (reset_line "5") = Some (Reset (PInt 5)).
Proof. reflexivity. Qed.

Example decode_ping : decode json_reader ping_line = Some Ping.
Proof. reflexivity. Qed.

Example decode_garbage : decode json_reader "garbage" = None.
Proof. reflexivity. Qed.

Example decode_unknown : decode json_reader unknown_line = None.
Proof. reflexivity. Qed.

(** One full turn clockwise, 00 -> 01 -> 11 -> 10 -> 00, adds 4; the
    reverse turn adds -4. *)
Example clockwise_turn :
  net_delta 0 [mkSample false true 0 None; mkSample true true 0 None;
               mkSample true false 0 None; mkSample false false 0 None] = 4
  /\ net_delta 0 [mkSample true false 0 None; mkSample true true 0 None;
                  mkSample false true 0 None; mkSample false false 0 None] = -4.
Proof. split; reflexivity. Qed.

Lemma C1_decoder_table_witness :
  last_state w_boot = encoder_state false false
  /\ position w_boot = PInt 0
  /\ py_getitem ENCODER_TABLE 1 = inl 1.
Proof.
  split; [reflexivity|]. split; [reflexivity|].
  exact (proj1 (proj2 (C1_decoder_table false false false true w_boot 0
                         eq_refl eq_refl))).
Defined.

(** C2 as stated fails: a reset to 42 over three pending steps leaves the
    three steps pending. *)
Lemma C2_reset_clears_pending_counterexample :
  let cmd := PDict [("type", PStr "reset"); ("position", PInt 42)] in
  handle_command cmd w_pending
  = (inl tt,
     mkWorld (PInt 42) 0 3 0 false true []
             [(encoder_msg 0 (PInt 42), true)])
  /\ accumulated_delta (snd (handle_command cmd w_pending)) <> 0.
Proof.
  split; [reflexivity|]. vm_compute. discriminate.
Qed.

Lemma C2_reset_sets_position_keeps_pending_witness :
  let d := [("type", PStr "reset"); ("position", PInt 42)] in
  py_eq_str (dict_get d "type" (PStr EmptyString)) "reset" = true
  /\ position (snd (handle_command (PDict d) w_pending)) = PInt 42
  /\ accumulated_delta (snd (handle_command (PDict d) w_pending)) = 3.
Proof.
  cbv zeta. split; [reflexivity|].
  exact (proj2 (C2_reset_sets_position_keeps_pending
                  [("type", PStr "reset"); ("position", PInt 42)]
                  w_pending eq_refl)).
Defined.

(** C3 fails on the code: a reset whose position is a string is accepted
    and stored, and the next decoded step raises [TypeError] out of the
    loop. *)
Theorem C3_bad_reset_stops_loop :
  let i1 := mkSample false false 1 (Some (Some (reset_line (quoted "x")))) in
  let i2 := mkSample false true 2 None in
  let i3 := mkSample true true 3 None in
  fst (loop_body json_reader i1 w_boot) = inl tt
  /\ position (snd (loop_body json_reader i1 w_boot)) = PStr "x"
  /\ fst (loop_body json_reader i2 (snd (loop_body json_reader i1 w_boot)))
     = inr TypeError
  /\ fst (run json_reader [i1; i2; i3] w_boot) = inr TypeError.
Proof. vm_compute. repeat split. Qed.



Lemma C5_no_report_without_pending_witness :
  accumulated_delta w_boot = 0
  /\ (SEND_INTERVAL <= 10 - last_send_time w_boot)%Q
  /\ send_periodic 10 w_boot = (inl tt, w_boot).
Proof.
  split; [reflexivity|].
  split; [apply Qle_bool_iff; reflexivity|].
  exact (C5_no_report_without_pending 10 w_boot eq_refl).
Defined.

Lemma C6_decode_then_dispatch_witness :
  let newline := String (ascii_of_nat 10) EmptyString in
  let text := "  " ++ ping_line ++ newline in
  line_yields json_reader text (Some Ping)
  /\ decode json_reader text = Some Ping
  /\ tx_log (snd (check_for_commands json_reader (Some (Some text)) w_boot))
     = [(PDict [("type", PStr "pong"); ("position", PInt 0)], true)].
Proof.
  cbv zeta.
  assert (line_yields json_reader
            ("  " ++ ping_line ++ String (ascii_of_nat 10) EmptyString)
            (Some Ping)) as Y.
  { apply (yields_ping json_reader _ "  " ping_line
             (String (ascii_of_nat 10) EmptyString)
             [("type", PStr "ping")]).
    - split; [|split; [|split; [|split]]].
      + repeat (constructor; [unfold whitespace; cbn; lia|]). constructor.
      + repeat (constructor; [unfold whitespace; cbn; lia|]). constructor.
      + split.
        * intros c rest E. vm_compute in E. inversion E; subst.
          unfold whitespace. cbn. lia.
        * intros front c E. vm_compute in E.
          apply (f_equal (@rev ascii)) in E. rewrite rev_app_distr in E.
          cbn [rev app] in E. inversion E; subst.
          unfold whitespace. cbn. lia.
      + discriminate.
      + reflexivity.
    - reflexivity.
    - left. exists [], []. split; [reflexivity | intros []]. }
  split; [exact Y|].
  destruct (proj2 (C6_decode_then_dispatch json_reader
                     ("  " ++ ping_line ++ String (ascii_of_nat 10) EmptyString)
                     w_boot) _ Y) as (D & _ & V).
  split; [exact D|]. exact (proj1 (V eq_refl)).
Defined.

Lemma C7_immediate_replies_witness :
  let d := [("type", PStr "reset"); ("position", PInt 100)] in
  usb_data w_pending = true
  /\ py_eq_str (dict_get d "type" (PStr EmptyString)) "reset" = true
  /\ tx_log (snd (handle_command (PDict d) w_pending))
     = [(PDict [("type", PStr "encoder");
                ("delta", PInt 0);
                ("position", PInt 100)], true)].
Proof.
  cbv zeta. split; [reflexivity|]. split; [reflexivity|].
  exact (proj1 (proj1 (C7_immediate_replies
                         [("type", PStr "reset"); ("position", PInt 100)]
                         w_pending eq_refl) eq_refl)).
Defined.

Lemma C8_failed_write_is_dropped_witness :
  0 <= last_state w_pending_faulty < 4
  /\ accumulated_delta w_pending_faulty <> 0
  /\ (SEND_INTERVAL <= 1 - last_send_time w_pending_faulty)%Q
  /\ usb_data w_pending_faulty = true
  /\ next_write_ok w_pending_faulty = false
  /\ fst (send_periodic 1 w_pending_faulty) = inl tt.
Proof.
  assert (0 <= last_state w_pending_faulty < 4) as H1 by (cbn; lia).
  assert (accumulated_delta w_pending_faulty <> 0) as H2 by (cbn; lia).
  assert (SEND_INTERVAL <= 1 - last_send_time w_pending_faulty)%Q as H3
    by (apply Qle_bool_iff; reflexivity).
  split; [exact H1|]. split; [exact H2|]. split; [exact H3|].
  split; [reflexivity|]. split; [reflexivity|].
  exact (proj1 (C8_failed_write_is_dropped json_reader 1 w_pending_faulty
                  H1 H2 H3 eq_refl eq_refl)).
Defined.

Lemma C9_index_in_bounds_witness :
  reachable json_reader w_boot
  /\ 0 <= transition_index (last_state w_boot) (encoder_state true true) < 16.
Proof.
  assert (reachable json_reader w_boot) as R by apply reach_boot.
  split; [exact R|].
  exact (proj1 (C9_index_in_bounds json_reader w_boot true true R)).
Defined.

Lemma C10_replies_leave_schedule_witness :
  String.eqb (strip ping_line) EmptyString = false
  /\ json_reader (strip ping_line) = Some (PDict [("type", PStr "ping")])
  /\ forall cmd w,
       last_send_time (snd (handle_command cmd w)) = last_send_time w.
Proof.
  split; [reflexivity|]. split; [reflexivity|].
  exact (proj1 (C10_replies_leave_schedule json_reader ping_line
                  eq_refl eq_refl)).
Defined.

(** ** Further properties of the loop *)

Lemma dispatch_effect c w :
  position (snd (dispatch c w))
  = match c with Reset p => p | Ping | SetLed _ => position w end
  /\ led_value (snd (dispatch c w))
     = match c with
       | Reset _ => false
       | Ping => led_value w
       | SetLed v => truthy v
       end
  /\ tx_log (snd (dispatch c w)) = (tx_log w ++ replies (Some c) w)%list.
Proof.
  rewrite dispatch_eq. unfold replies.
  destruct c; destruct (usb_data w); cbn; rewrite ?app_nil_r; repeat split.
Qed.

Lemma reported_total_app l1 l2 :
  reported_total (l1 ++ l2) = reported_total l1 + reported_total l2.
Proof.
  induction l1 as [|e rest IH]; cbn [app reported_total]; lia.
Qed.

Lemma reported_delta_encoder delta pos ok :
  reported_delta (encoder_msg delta pos, ok) = delta.
Proof. reflexivity. Qed.

Lemma replies_report_nothing c w : reported_total (replies c w) = 0.
Proof.
  unfold replies. destruct (usb_data w); [|reflexivity].
  destruct c as [[p| |v]|]; reflexivity.
Qed.

Lemma replies_length c w : (List.length (replies c w) <= 1)%nat.
Proof.
  unfold replies. destruct (usb_data w); [|cbn; lia].
  destruct c as [[p| |v]|]; cbn; lia.
Qed.

Lemma replies_protocol c w : Forall is_protocol_entry (replies c w).
Proof.
  unfold replies. destruct (usb_data w); [|constructor].
  destruct c as [[p| |v]|]; try apply Forall_nil;
    (apply Forall_cons; [|apply Forall_nil]).
  - left. exists 0, p. reflexivity.
  - right. exists (position w). reflexivity.
Qed.

Lemma py_iadd_number x delta :
  is_number x = true ->
  exists y, py_iadd x delta = inl y /\ is_number y = true.
Proof.
  destruct x; try discriminate; intros _; eexists; split; reflexivity.
Qed.

Lemma py_iadd_not_number x delta :
  is_number x = false -> py_iadd x delta = inr TypeError.
Proof.
  destruct x; try discriminate; reflexivity.
Qed.

(** The decoding block, case by case: it raises exactly when a non-zero
    step meets a position that is not a number, and then nothing has been
    assigned. *)
Lemma poll_encoder_cases a b w :
  0 <= last_state w < 4 ->
  let step := step_delta (last_state w) a b in
  (poll_encoder a b w = (inr TypeError, w)
   /\ is_number (position w) = false /\ step <> 0)
  \/ exists w1,
       poll_encoder a b w = (inl tt, w1)
       /\ ((step = 0 /\ position w1 = position w)
           \/ (step <> 0 /\ py_iadd (position w) step = inl (position w1)))
       /\ accumulated_delta w1 = accumulated_delta w + step
       /\ last_state w1 = encoder_state a b
       /\ led_value w1
          = (if encoder_state a b =? last_state w then false
             else if step =? 0 then led_value w else true)
       /\ last_send_time w1 = last_send_time w
       /\ usb_data w1 = usb_data w
       /\ tx_faults w1 = tx_faults w
       /\ tx_log w1 = tx_log w.
Proof.
  intros Hr step. subst step. rewrite poll_encoder_eq. cbv zeta.
  destruct (encoder_state a b =? last_state w) eqn:E.
  - apply Z.eqb_eq in E. right. eexists. split; [reflexivity|].
    rewrite (same_state_delta _ _ _ Hr E), Z.add_0_r. cbn.
    repeat split; auto.
  - rewrite (table_lookup _ a b Hr).
    destruct (step_delta (last_state w) a b =? 0) eqn:D.
    + apply Z.eqb_eq in D. right. eexists. split; [reflexivity|].
      rewrite D, Z.add_0_r. cbn. repeat split; auto.
    + apply Z.eqb_neq in D.
      destruct (is_number (position w)) eqn:N.
      * destruct (py_iadd_number _ (step_delta (last_state w) a b) N)
          as (y & Hy & _).
        right. rewrite Hy. eexists. split; [reflexivity|]. cbn.
        repeat split; auto.
      * left. rewrite (py_iadd_not_number _ _ N). repeat split; auto.
Qed.

Lemma send_periodic_effect now w :
  let fires := negb (accumulated_delta w =? 0)
               && Qle_bool SEND_INTERVAL (now - last_send_time w) in
  let w' := snd (send_periodic now w) in
  position w' = position w
  /\ last_state w' = last_state w
  /\ led_value w' = led_value w
  /\ usb_data w' = usb_data w
  /\ accumulated_delta w' = (if fires then 0 else accumulated_delta w)
  /\ last_send_time w' = (if fires then now else last_send_time w)
  /\ tx_log w'
     = (tx_log w
        ++ if fires && usb_data w
           then [(encoder_msg (accumulated_delta w) (position w),
                  next_write_ok w)]
           else [])%list.
Proof.
  cbv zeta. rewrite send_periodic_eq. cbn [snd].
  destruct (negb (accumulated_delta w =? 0)
            && Qle_bool SEND_INTERVAL (now - last_send_time w)).
  - destruct (usb_data w) eqn:U; cbn; rewrite ?U, ?app_nil_r; repeat split.
  - cbn. rewrite app_nil_r. repeat split.
Qed.

Section LoopProperties.

Variable json_loads : string -> option pyval.

(** [check_for_commands] on any inbound: it never raises, and what it does
    is the branch of the decoded command. *)
Lemma check_for_commands_decoded received w :
  check_for_commands json_loads received w
  = (inl tt,
     if usb_data w then
       match command_of json_loads received with
       | Some c => snd (dispatch c w)
       | None => w
       end
     else w).
Proof.
  rewrite check_for_commands_eq. unfold command_of, decode. cbv zeta.
  destruct received as [[text|]|];
    [|destruct (usb_data w); reflexivity|destruct (usb_data w); reflexivity].
  destruct (usb_data w) eqn:U; [|reflexivity].
  destruct (String.eqb (strip text) EmptyString); [reflexivity|].
  destruct (json_loads (strip text)) as [cmd|]; [|reflexivity].
  rewrite handle_command_eq.
  destruct cmd; try reflexivity.
  cbv zeta.
  destruct (dict_get d "type" (PStr EmptyString)); try reflexivity.
  cbn [py_eq_str].
  destruct (String.eqb s "reset"); [rewrite dispatch_eq, U; reflexivity|].
  destruct (String.eqb s "ping"); [rewrite dispatch_eq, U; reflexivity|].
  destruct (String.eqb s "led"); [rewrite dispatch_eq; reflexivity|].
  reflexivity.
Qed.

Lemma check_for_commands_effect received w :
  let c := command_of json_loads received in
  let w' := snd (check_for_commands json_loads received w) in
  position w'
  = (if usb_data w
     then match c with Some (Reset p) => p | _ => position w end
     else position w)
  /\ led_value w'
     = (if usb_data w
        then match c with
             | Some (Reset _) => false
             | Some (SetLed v) => truthy v
             | Some Ping | None => led_value w
             end
        else led_value w)
  /\ tx_log w' = (tx_log w ++ replies c w)%list.
Proof.
  cbv zeta. rewrite check_for_commands_decoded. cbn [snd]. unfold replies.
  destruct (usb_data w) eqn:U; [|rewrite app_nil_r; repeat split].
  destruct (command_of json_loads received) as [c|];
    [|rewrite app_nil_r; repeat split].
  destruct (dispatch_effect c w) as (Hp & Hl & Ht).
  rewrite Hp, Hl, Ht. unfold replies. rewrite U.
  destruct c; repeat split.
Qed.

(** A pass whose decoding block raised nothing, as the two later blocks
    leave it. *)
Lemma loop_body_after_poll i w w1 :
  poll_encoder (pin_a i) (pin_b i) w = (inl tt, w1) ->
  loop_body json_loads i w
  = (inl tt,
     snd (check_for_commands json_loads (inbound i)
            (snd (send_periodic (clock i) w1)))).
Proof.
  intros P. rewrite loop_body_eq, P, check_for_commands_eq. reflexivity.
Qed.

(** X1. A pass of the loop can only end in the [TypeError] of
    [position += delta]: that happens exactly when a non-zero step is
    decoded while the position is not a number, and then the pass has
    changed nothing.  No inbound line and no write failure raises. *)
Theorem X1_pass_raises_only_type_error (i : sample) (w : world) :
  0 <= last_state w < 4 ->
  let step := step_delta (last_state w) (pin_a i) (pin_b i) in
  if is_number (position w) || (step =? 0)
  then fst (loop_body json_loads i w) = inl tt
  else loop_body json_loads i w = (inr TypeError, w).
Proof.
  intros Hr step. subst step.
  destruct (poll_encoder_cases (pin_a i) (pin_b i) w Hr)
    as [(P & N & D) | (w1 & P & Hpos & _)].
  - apply Z.eqb_neq in D. rewrite N, D. cbn [orb].
    rewrite loop_body_eq, P. reflexivity.
  - destruct (is_number (position w)) eqn:N; cbn [orb];
      [rewrite (loop_body_after_poll _ _ _ P); reflexivity|].
    destruct (step_delta (last_state w) (pin_a i) (pin_b i) =? 0) eqn:D;
      [rewrite (loop_body_after_poll _ _ _ P); reflexivity|].
    exfalso. apply Z.eqb_neq in D.
    destruct Hpos as [(D0 & _) | (_ & A)]; [exact (D D0)|].
    rewrite (py_iadd_not_number _ _ N) in A. discriminate.
Qed.

(** A pass on a numeric position, with no reset to a non-number. *)
Lemma loop_body_numeric i w :
  0 <= last_state w < 4 ->
  is_number (position w) = true ->
  numeric_reset json_loads i = true ->
  exists w',
    loop_body json_loads i w = (inl tt, w')
    /\ is_number (position w') = true
    /\ 0 <= last_state w' < 4.
Proof.
  intros Hr N B.
  destruct (poll_encoder_cases (pin_a i) (pin_b i) w Hr)
    as [(_ & N' & _) | (w1 & P & Hpos & _)]; [congruence|].
  pose proof (loop_body_after_poll _ _ _ P) as L.
  eexists. split; [exact L|]. split.
  - destruct (check_for_commands_effect (inbound i)
                (snd (send_periodic (clock i) w1))) as (Cp & _).
    destruct (send_periodic_effect (clock i) w1) as (Sp & _).
    rewrite Cp, Sp. clear Cp Sp.
    assert (is_number (position w1) = true) as N1.
    { destruct Hpos as [(_ & ->) | (_ & A)]; [exact N|].
      destruct (py_iadd_number _ (step_delta (last_state w) (pin_a i) (pin_b i)) N)
        as (y & Hy & Ny).
      congruence. }
    unfold numeric_reset in B.
    destruct (usb_data _); [|exact N1].
    destruct (command_of json_loads (inbound i)) as [[q| |v]|]; assumption.
  - exact (loop_body_range json_loads _ _ _ _ Hr L).
Qed.

(** X2. As long as every reset asks for a number, the loop keeps going:
    from a numeric position, every finite run of passes ends normally,
    whatever the pins, the clock, the other inbound lines and the write
    failures are, and the position is still a number. *)
Theorem X2_loop_survives_numeric_resets (samples : list sample) : forall w,
  0 <= last_state w < 4 ->
  is_number (position w) = true ->
  forallb (numeric_reset json_loads) samples = true ->
  exists w',
    run json_loads samples w = (inl tt, w')
    /\ is_number (position w') = true.
Proof.
  induction samples as [|i rest IH]; intros w Hr N B.
  - exists w. split; [reflexivity | exact N].
  - cbn [forallb] in B. apply andb_true_iff in B. destruct B as (Bi & Brest).
    destruct (loop_body_numeric i w Hr N Bi) as (w1 & L & N1 & Hr1).
    destruct (IH w1 Hr1 N1 Brest) as (w' & R & N').
    exists w'. split; [|exact N'].
    cbn [run]. unfold bind. rewrite L. exact R.
Qed.

(** A pass on an integer position, with no reset: the table's step is
    added. *)
Lemma loop_body_int_step i w p :
  0 <= last_state w < 4 ->
  position w = PInt p ->
  no_reset json_loads i = true ->
  exists w',
    loop_body json_loads i w = (inl tt, w')
    /\ position w' = PInt (p + step_delta (last_state w) (pin_a i) (pin_b i))
    /\ last_state w' = encoder_state (pin_a i) (pin_b i).
Proof.
  intros Hr Hp B.
  destruct (poll_encoder_int (pin_a i) (pin_b i) w p Hr Hp)
    as (w1 & P & P1 & _ & P2 & _).
  pose proof (loop_body_after_poll _ _ _ P) as L.
  eexists. split; [exact L|]. split.
  - destruct (check_for_commands_effect (inbound i)
                (snd (send_periodic (clock i) w1))) as (Cp & _).
    destruct (send_periodic_effect (clock i) w1) as (Sp & _).
    rewrite Cp, Sp, P1. unfold no_reset in B.
    destruct (usb_data _); [|reflexivity].
    destruct (command_of json_loads (inbound i)) as [[q| |v]|];
      try reflexivity; discriminate.
  - destruct (check_for_commands_frame json_loads (inbound i)
                (snd (send_periodic (clock i) w1))) as (_ & _ & Cs & _).
    destruct (send_periodic_effect (clock i) w1) as (_ & Ss & _).
    rewrite Cs, Ss. exact P2.
Qed.

(** X3. Between resets the position counts the decoded steps: from an
    integer position [p], a run whose inbound lines carry no reset ends
    normally with position [p] plus the sum of the table's steps along the
    sampled pins (pings, LED commands, unreadable lines and write
    failures do not disturb the count). *)
Theorem X3_position_counts_steps (samples : list sample) : forall w p,
  0 <= last_state w < 4 ->
  position w = PInt p ->
  forallb (no_reset json_loads) samples = true ->
  exists w',
    run json_loads samples w = (inl tt, w')
    /\ position w' = PInt (p + net_delta (last_state w) samples)
    /\ last_state w' = end_state (last_state w) samples.
Proof.
  induction samples as [|i rest IH]; intros w p Hr Hp B.
  - exists w. cbn. rewrite Z.add_0_r. repeat split; auto.
  - cbn [forallb] in B. apply andb_true_iff in B. destruct B as (Bi & Brest).
    destruct (loop_body_int_step i w p Hr Hp Bi) as (w1 & L & P1 & S1).
    pose proof (loop_body_range json_loads _ _ _ _ Hr L) as Hr1.
    destruct (IH w1 _ Hr1 P1 Brest) as (w' & R & P' & S').
    exists w'. cbn [run net_delta end_state]. unfold bind. rewrite L.
    split; [exact R|]. rewrite P', S', S1. split; [f_equal; lia | reflexivity].
Qed.

Lemma loop_body_quiet_state i w w' :
  0 <= last_state w < 4 ->
  loop_body json_loads i w = (inl tt, w') ->
  last_state w' = encoder_state (pin_a i) (pin_b i).
Proof.
  intros Hr L.
  destruct (poll_encoder_cases (pin_a i) (pin_b i) w Hr)
    as [(P & _) | (w1 & P & _ & _ & Ps & _)].
  - rewrite loop_body_eq, P in L. discriminate.
  - rewrite (loop_body_after_poll _ _ _ P) in L. inversion L as [E].
    destruct (check_for_commands_frame json_loads (inbound i)
                (snd (send_periodic (clock i) w1))) as (_ & _ & Cs & _).
    destruct (send_periodic_effect (clock i) w1) as (_ & Ss & _).
    rewrite Cs, Ss. exact Ps.
Qed.

(** A pass that ends normally with the data port present: every decoded
    step is either in a logged report or still pending. *)
Lemma loop_body_conserves i w w' :
  0 <= last_state w < 4 ->
  usb_data w = true ->
  loop_body json_loads i w = (inl tt, w') ->
  reported_total (tx_log w') + accumulated_delta w'
  = reported_total (tx_log w) + accumulated_delta w
    + step_delta (last_state w) (pin_a i) (pin_b i)
  /\ usb_data w' = true.
Proof.
  intros Hr U L.
  destruct (poll_encoder_cases (pin_a i) (pin_b i) w Hr)
    as [(P & _) | (w1 & P & _ & Pa & _ & _ & _ & Pu & _ & Pl)].
  - rewrite loop_body_eq, P in L. discriminate.
  - rewrite (loop_body_after_poll _ _ _ P) in L. inversion L as [E]. clear L.
    set (sp := snd (send_periodic (clock i) w1)) in *.
    destruct (check_for_commands_effect (inbound i) sp) as (_ & _ & Cl).
    destruct (check_for_commands_frame json_loads (inbound i) sp)
      as (_ & Ca & _ & Cu & _).
    destruct (send_periodic_effect (clock i) w1)
      as (_ & _ & _ & Su & Sa & _ & Sl).
    fold sp in Su, Sa, Sl.
    rewrite Cl, Ca, Cu, Su, Sa, Sl, Pu, Pl, Pa, U.
    rewrite !reported_total_app, replies_report_nothing, andb_true_r.
    split; [|reflexivity].
    match goal with
    | |- context [if ?c then _ else _] => destruct c
    end; cbn [reported_total]; rewrite ?reported_delta_encoder; lia.
Qed.

(** X4. No decoded step is lost while the data port is present: along any
    run that ends normally, the deltas of the logged reports plus the
    pending counter grow by exactly the sum of the decoded steps, whatever
    commands arrive in between. *)
Theorem X4_steps_reported_or_pending (samples : list sample) : forall w w',
  0 <= last_state w < 4 ->
  usb_data w = true ->
  run json_loads samples w = (inl tt, w') ->
  reported_total (tx_log w') + accumulated_delta w'
  = reported_total (tx_log w) + accumulated_delta w
    + net_delta (last_state w) samples.
Proof.
  induction samples as [|i rest IH]; intros w w' Hr U R.
  - cbn in R. inversion R. cbn. lia.
  - cbn [run] in R. unfold bind in R.
    destruct (loop_body json_loads i w) as [[[]|e] w1] eqn:L; [|discriminate].
    pose proof (loop_body_range json_loads _ _ _ _ Hr L) as Hr1.
    destruct (loop_body_conserves i w w1 Hr U L) as (C & U1).
    pose proof (loop_body_quiet_state i w w1 Hr L) as S1.
    rewrite (IH w1 w' Hr1 U1 R), C, S1. cbn [net_delta]. lia.
Qed.

(** What one pass adds to the log: at most the periodic report and one
    reply, behind what was there. *)
Lemma loop_body_log i w r w' :
  loop_body json_loads i w = (r, w') ->
  exists added,
    tx_log w' = (tx_log w ++ added)%list
    /\ (List.length added <= 2)%nat
    /\ Forall is_protocol_entry added.
Proof.
  rewrite loop_body_eq.
  destruct (poll_encoder (pin_a i) (pin_b i) w) as [[[]|e] w1] eqn:P;
    apply poll_encoder_frame in P; destruct P as (_ & _ & _ & Pl & _).
  - intros L.
    set (sp := snd (send_periodic (clock i) w1)) in *.
    destruct (check_for_commands_effect (inbound i) sp) as (_ & _ & Cl).
    rewrite L in Cl. cbn [snd] in Cl.
    destruct (send_periodic_effect (clock i) w1) as (_ & _ & _ & _ & _ & _ & Sl).
    fold sp in Sl. rewrite Cl, Sl, Pl, <- app_assoc.
    eexists. split; [reflexivity|].
    pose proof (replies_length (command_of json_loads (inbound i)) sp) as Hlen.
    pose proof (replies_protocol (command_of json_loads (inbound i)) sp) as Hpr.
    match goal with
    | |- context [if ?c then _ else _] => destruct c
    end; cbn [app List.length]; split; try lia; try exact Hpr.
    apply Forall_cons; [|exact Hpr].
    left. eexists. eexists. reflexivity.
  - intros L; inversion L; subst; clear L.
    exists []. rewrite app_nil_r. repeat split; [exact Pl | cbn; lia | constructor].
Qed.

(** X5. The log only grows, and slowly: a run of [n] passes appends at
    most [2 * n] messages behind the ones already written, and each of
    them is an encoder message or a pong. *)
Theorem X5_log_grows_by_protocol_messages (samples : list sample) :
  forall w r w',
    run json_loads samples w = (r, w') ->
    exists added,
      tx_log w' = (tx_log w ++ added)%list
      /\ (List.length added <= 2 * List.length samples)%nat
      /\ Forall is_protocol_entry added.
Proof.
  induction samples as [|i rest IH]; intros w r w' R.
  - cbn in R. inversion R; subst.
    exists []. rewrite app_nil_r. repeat split; [cbn; lia | constructor].
  - cbn [run] in R. unfold bind in R.
    destruct (loop_body json_loads i w) as [[[]|e] w1] eqn:L.
    + destruct (loop_body_log _ _ _ _ L) as (a1 & E1 & N1 & F1).
      destruct (IH _ _ _ R) as (a2 & E2 & N2 & F2).
      exists (a1 ++ a2)%list. rewrite E2, E1, <- app_assoc.
      split; [reflexivity|]. split.
      * rewrite length_app. cbn [List.length]. lia.
      * apply Forall_app. split; assumption.
    + inversion R; subst; clear R.
      destruct (loop_body_log _ _ _ _ L) as (a1 & E1 & N1 & F1).
      exists a1. split; [exact E1|]. split; [cbn [List.length]; lia | exact F1].
Qed.

Lemma delivered_total_app l1 l2 :
  delivered_total (l1 ++ l2) = delivered_total l1 + delivered_total l2.
Proof.
  induction l1 as [|e rest IH]; cbn [app delivered_total]; lia.
Qed.

Lemma replies_deliver_nothing c w : delivered_total (replies c w) = 0.
Proof.
  unfold replies. destruct (usb_data w); [|reflexivity].
  destruct c as [[q| |v]|]; cbn [delivered_total]; try reflexivity;
    unfold delivered_delta; cbn [snd]; destruct (next_write_ok w); reflexivity.
Qed.

Lemma no_fault_next_write w :
  forallb negb (tx_faults w) = true -> next_write_ok w = true.
Proof.
  unfold next_write_ok. destruct (tx_faults w) as [|[] rest]; cbn;
    [reflexivity | discriminate | reflexivity].
Qed.

Lemma no_fault_tl (l : list bool) :
  forallb negb l = true -> forallb negb (tl l) = true.
Proof.
  destruct l as [|b rest]; cbn; [reflexivity|].
  intros H. apply andb_true_iff in H. apply H.
Qed.

(** The fault script is only ever consumed from the front. *)
Lemma send_periodic_faults now w :
  forallb negb (tx_faults w) = true ->
  forallb negb (tx_faults (snd (send_periodic now w))) = true.
Proof.
  intros H. rewrite send_periodic_eq. cbn [snd].
  destruct (_ && _); [|exact H].
  destruct (usb_data w); cbn; [apply no_fault_tl|]; exact H.
Qed.

Lemma check_for_commands_faults received w :
  forallb negb (tx_faults w) = true ->
  forallb negb
    (tx_faults (snd (check_for_commands json_loads received w))) = true.
Proof.
  intros H. rewrite check_for_commands_decoded. cbn [snd].
  destruct (usb_data w) eqn:U; [|exact H].
  destruct (command_of json_loads received) as [c|]; [|exact H].
  rewrite dispatch_eq.
  destruct c; rewrite ?U; cbn; try apply no_fault_tl; exact H.
Qed.

(** A pass that ends normally with the data port present and no write
    failing: every decoded step is either delivered or still pending. *)
Lemma loop_body_delivers i w w' :
  0 <= last_state w < 4 ->
  usb_data w = true ->
  forallb negb (tx_faults w) = true ->
  loop_body json_loads i w = (inl tt, w') ->
  delivered_total (tx_log w') + accumulated_delta w'
  = delivered_total (tx_log w) + accumulated_delta w
    + step_delta (last_state w) (pin_a i) (pin_b i)
  /\ usb_data w' = true
  /\ forallb negb (tx_faults w') = true.
Proof.
  intros Hr U NF L.
  destruct (poll_encoder_cases (pin_a i) (pin_b i) w Hr)
    as [(P & _) | (w1 & P & _ & Pa & _ & _ & _ & Pu & Pf & Pl)].
  - rewrite loop_body_eq, P in L. discriminate.
  - rewrite (loop_body_after_poll _ _ _ P) in L. inversion L as [E]. clear L.
    assert (forallb negb (tx_faults w1) = true) as NF1 by (rewrite Pf; exact NF).
    pose proof (send_periodic_faults (clock i) w1 NF1) as NFs.
    set (sp := snd (send_periodic (clock i) w1)) in *.
    pose proof (check_for_commands_faults (inbound i) sp NFs) as NFc.
    destruct (check_for_commands_effect (inbound i) sp) as (_ & _ & Cl).
    destruct (check_for_commands_frame json_loads (inbound i) sp)
      as (_ & Ca & _ & Cu & _).
    destruct (send_periodic_effect (clock i) w1)
      as (_ & _ & _ & Su & Sa & _ & Sl).
    fold sp in Su, Sa, Sl.
    split; [|split; [congruence | exact NFc]].
    rewrite Cl, Ca, Sa, Sl, Pu, Pl, Pa, U.
    rewrite !delivered_total_app, replies_deliver_nothing, andb_true_r.
    rewrite (no_fault_next_write _ NF1).
    match goal with
    | |- context [if ?c then _ else _] => destruct c
    end; cbn [delivered_total]; unfold delivered_delta; cbn [snd];
      rewrite ?reported_delta_encoder; lia.
Qed.

(** X6. With the data port present, no write failing and no reset, the
    host can follow the position from the reports it receives: along a
    run from an integer position, the position minus the delivered and
    pending deltas does not change, so adding up the deltas of the
    delivered reports tracks the position up to what is still pending. *)
Theorem X6_reports_track_position (samples : list sample) : forall w p,
  0 <= last_state w < 4 ->
  usb_data w = true ->
  forallb negb (tx_faults w) = true ->
  position w = PInt p ->
  forallb (no_reset json_loads) samples = true ->
  exists w' p',
    run json_loads samples w = (inl tt, w')
    /\ position w' = PInt p'
    /\ p' - (delivered_total (tx_log w') + accumulated_delta w')
       = p - (delivered_total (tx_log w) + accumulated_delta w).
Proof.
  induction samples as [|i rest IH]; intros w p Hr U NF Hp B.
  - exists w, p. repeat split; auto.
  - cbn [forallb] in B. apply andb_true_iff in B. destruct B as (Bi & Brest).
    destruct (loop_body_int_step i w p Hr Hp Bi) as (w1 & L & P1 & _).
    pose proof (loop_body_range json_loads _ _ _ _ Hr L) as Hr1.
    destruct (loop_body_delivers i w w1 Hr U NF L) as (C & U1 & NF1).
    destruct (IH w1 _ Hr1 U1 NF1 P1 Brest) as (w' & p' & R & P' & E').
    exists w', p'. cbn [run]. unfold bind. rewrite L.
    split; [exact R|]. split; [exact P'|]. lia.
Qed.

(** X7. Without the data port ([usb_cdc.data] false) a pass writes
    nothing and honours no command, whatever is inbound, and it still
    drains the pending counter on schedule: those steps are counted in the
    position and reported to nobody. *)
Theorem X7_pass_without_port (i : sample) (w : world) (p : Z) :
  0 <= last_state w < 4 ->
  usb_data w = false ->
  position w = PInt p ->
  let pending :=
    accumulated_delta w + step_delta (last_state w) (pin_a i) (pin_b i) in
  exists w',
    loop_body json_loads i w = (inl tt, w')
    /\ tx_log w' = tx_log w
    /\ position w' = PInt (p + step_delta (last_state w) (pin_a i) (pin_b i))
    /\ accumulated_delta w'
       = (if negb (pending =? 0)
             && Qle_bool SEND_INTERVAL (clock i - last_send_time w)
          then 0 else pending).
Proof.
  intros Hr U Hp pending. subst pending.
  destruct (poll_encoder_int (pin_a i) (pin_b i) w p Hr Hp)
    as (w1 & P & P1 & Pa & _ & Pt & Pu & _ & Pl).
  pose proof (loop_body_after_poll _ _ _ P) as L.
  eexists. split; [exact L|].
  set (sp := snd (send_periodic (clock i) w1)) in *.
  destruct (check_for_commands_effect (inbound i) sp) as (Cp & _ & Cl).
  destruct (check_for_commands_frame json_loads (inbound i) sp)
    as (_ & Ca & _).
  destruct (send_periodic_effect (clock i) w1)
    as (Sp & _ & _ & Su & Sa & _ & Sl).
  fold sp in Sp, Su, Sa, Sl.
  assert (usb_data sp = false) as Usp by congruence.
  unfold replies in Cl. rewrite Usp in Cp, Cl.
  rewrite Cp, Cl, Ca, Sp, Sa, Sl, Pu, U, Pl, P1, Pa, Pt.
  rewrite andb_false_r, !app_nil_r. repeat split.
Qed.

(** X12. A pass that finds the pins where they were ends with the LED
    off, unless the same pass receives an LED command: the effect of an
    LED command therefore lasts until the next pass with the pins at
    rest. *)
Theorem X12_idle_pass_turns_led_off (i : sample) (w : world) :
  encoder_state (pin_a i) (pin_b i) = last_state w ->
  fst (loop_body json_loads i w) = inl tt
  /\ led_value (snd (loop_body json_loads i w))
     = (if usb_data w
        then match command_of json_loads (inbound i) with
             | Some (SetLed v) => truthy v
             | _ => false
             end
        else false).
Proof.
  intros E.
  assert (poll_encoder (pin_a i) (pin_b i) w = (inl tt, set_led false w)) as P
    by (rewrite poll_encoder_eq; cbv zeta; rewrite E, Z.eqb_refl; reflexivity).
  rewrite (loop_body_after_poll _ _ _ P). cbn [fst snd].
  split; [reflexivity|].
  set (sp := snd (send_periodic (clock i) (set_led false w))) in *.
  destruct (check_for_commands_effect (inbound i) sp) as (_ & Cl & _).
  destruct (send_periodic_effect (clock i) (set_led false w))
    as (_ & _ & Sl & Su & _).
  fold sp in Sl, Su. rewrite Cl, Sl, Su. cbn [led_value usb_data set_led].
  destruct (usb_data w); [|reflexivity].
  destruct (command_of json_loads (inbound i)) as [[q| |v]|]; reflexivity.
Qed.

Lemma lstrip_spaces l : forallb is_space l = true -> lstrip l = [].
Proof.
  induction l as [|c rest IH]; [reflexivity|].
  cbn [forallb lstrip]. intros H. apply andb_true_iff in H.
  destruct H as (Hc & Hrest). rewrite Hc. exact (IH Hrest).
Qed.

(** X11. A line made only of whitespace (a bare newline, the empty line)
    is dropped before the parser is called: whatever [json.loads] would do
    with it, nothing changes and nothing is written. *)
Theorem X11_blank_line_is_dropped (text : string) (w : world) :
  forallb is_space (list_ascii_of_string text) = true ->
  check_for_commands json_loads (Some (Some text)) w = (inl tt, w).
Proof.
  intros H. rewrite check_for_commands_eq.
  assert (strip text = EmptyString) as ->
    by (unfold strip; rewrite (lstrip_spaces _ H); reflexivity).
  destruct (usb_data w); reflexivity.
Qed.

End LoopProperties.

Lemma step_delta_back pa pb a b :
  step_delta (encoder_state pa pb) a b + step_delta (encoder_state a b) pa pb = 0.
Proof. destruct pa, pb, a, b; reflexivity. Qed.

(** X8. A step and the step back cancel in the loop: over two
    consecutive passes in which the pins move to another state and return,
    with no reset inbound, the position is back at its value and so is
    [last_state]; with the data port present the reported and pending
    deltas together are back at their sum (the pending counter alone need
    not be, since a report may go out between the two steps).  Bounce
    between two neighbouring states does not make the position drift. *)
Theorem X8_bounce_cancels (json_loads : string -> option pyval)
  (pa pb : bool) (i1 i2 : sample) (w : world) (p : Z) :
  last_state w = encoder_state pa pb ->
  position w = PInt p ->
  pin_a i2 = pa -> pin_b i2 = pb ->
  no_reset json_loads i1 = true ->
  no_reset json_loads i2 = true ->
  exists w2,
    run json_loads [i1; i2] w = (inl tt, w2)
    /\ position w2 = PInt p
    /\ last_state w2 = last_state w
    /\ (usb_data w = true ->
        reported_total (tx_log w2) + accumulated_delta w2
        = reported_total (tx_log w) + accumulated_delta w).
Proof.
  intros Hs Hp Ea Eb B1 B2.
  assert (0 <= last_state w < 4) as Hr
    by (rewrite Hs; apply encoder_state_range).
  destruct (loop_body_int_step json_loads i1 w p Hr Hp B1)
    as (w1 & L1 & P1 & S1).
  pose proof (loop_body_range json_loads _ _ _ _ Hr L1) as Hr1.
  destruct (loop_body_int_step json_loads i2 w1 _ Hr1 P1 B2)
    as (w2 & L2 & P2 & S2).
  pose proof (step_delta_back pa pb (pin_a i1) (pin_b i1)) as Back.
  rewrite <- Hs, <- S1 in Back. rewrite <- Ea, <- Eb in Back.
  exists w2. cbn [run]. unfold bind, ret. rewrite L1, L2.
  split; [reflexivity|]. split; [rewrite P2; f_equal; lia|].
  split; [rewrite S2, Ea, Eb, Hs; reflexivity|].
  intros U.
  destruct (loop_body_conserves json_loads i1 w w1 Hr U L1) as (C1 & U1).
  destruct (loop_body_conserves json_loads i2 w1 w2 Hr1 U1 L2) as (C2 & _).
  lia.
Qed.

(** X9. The table moves the position by one step at most, and by a step
    exactly when one of the two pins has changed: unchanged pins and two
    pins changed at once both give 0. *)
Theorem X9_step_iff_one_pin_changed (pa pb a b : bool) :
  let index := transition_index (encoder_state pa pb) (encoder_state a b) in
  exists delta,
    py_getitem ENCODER_TABLE index = inl delta
    /\ -1 <= delta <= 1
    /\ (delta =? 0) = negb (xorb (xorb pa a) (xorb pb b)).
Proof.
  cbv zeta. eexists. split; [apply table_lookup, encoder_state_range|].
  destruct pa, pb, a, b; vm_compute; repeat split; congruence.
Qed.

(** X10. When both pins have changed between two samples, the decoding
    block only resynchronises [last_state]: position, pending counter, LED
    and port are untouched, and nothing is raised even if the position is
    not a number. *)
Theorem X10_double_step_resynchronises (a b : bool) (w : world) :
  last_state w = encoder_state (negb a) (negb b) ->
  poll_encoder a b w = (inl tt, set_last_state (encoder_state a b) w).
Proof.
  intros Hs. rewrite poll_encoder_eq. cbv zeta. rewrite Hs.
  destruct a, b; reflexivity.
Qed.

Lemma dict_get_skips d1 d2 k v key default :
  String.eqb k key = false ->
  dict_get (d1 ++ (k, v) :: d2) key default = dict_get (d1 ++ d2) key default.
Proof.
  intros H. induction d1 as [|[k1 v1] rest IH]; cbn [app dict_get].
  - rewrite H. reflexivity.
  - rewrite IH. reflexivity.
Qed.

(** X13. Fields a command does not know are ignored: adding a field
    other than [type], [position] and [on] anywhere in the object changes
    nothing in what [handle_command] does. *)
Theorem X13_unknown_fields_ignored
  (d1 d2 : list (string * pyval)) (k : string) (v : pyval) (w : world) :
  String.eqb k "type" = false ->
  String.eqb k "position" = false ->
  String.eqb k "on" = false ->
  handle_command (PDict (d1 ++ (k, v) :: d2)) w
  = handle_command (PDict (d1 ++ d2)) w.
Proof.
  intros Ht Hp Ho. rewrite !handle_command_eq. cbv zeta.
  rewrite !(dict_get_skips d1 d2 k v _ _ Ht),
          !(dict_get_skips d1 d2 k v _ _ Hp),
          !(dict_get_skips d1 d2 k v _ _ Ho).
  reflexivity.
Qed.

(** ** Closed instances of the further properties *)

Lemma X1_pass_raises_only_type_error_witness :
  0 <= last_state w_boot < 4
  /\ fst (loop_body json_reader (mkSample false true 1 None) w_boot) = inl tt.
Proof.
  assert (0 <= last_state w_boot < 4) as H by (cbn; lia).
  split; [exact H|].
  exact (X1_pass_raises_only_type_error json_reader
           (mkSample false true 1 None) w_boot H).
Defined.

Lemma X2_loop_survives_numeric_resets_witness :
  let samples := [mkSample false true 1 (Some (Some (reset_line "5")));
                  mkSample true true 2 (Some (Some "garbage"))] in
  0 <= last_state w_boot < 4
  /\ is_number (position w_boot) = true
  /\ forallb (numeric_reset json_reader) samples = true
  /\ exists w', run json_reader samples w_boot = (inl tt, w')
                /\ is_number (position w') = true.
Proof.
  cbv zeta.
  assert (0 <= last_state w_boot < 4) as H by (cbn; lia).
  split; [exact H|]. split; [reflexivity|]. split; [reflexivity|].
  exact (X2_loop_survives_numeric_resets json_reader
           [mkSample false true 1 (Some (Some (reset_line "5")));
            mkSample true true 2 (Some (Some "garbage"))]
           w_boot H eq_refl eq_refl).
Defined.

Lemma X3_position_counts_steps_witness :
  let samples := [mkSample false true 1 (Some (Some ping_line));
                  mkSample true true 2 None] in
  0 <= last_state w_boot < 4
  /\ position w_boot = PInt 0
  /\ forallb (no_reset json_reader) samples = true
  /\ exists w', run json_reader samples w_boot = (inl tt, w')
                /\ position w' = PInt (0 + net_delta (last_state w_boot) samples)
                /\ last_state w' = end_state (last_state w_boot) samples.
Proof.
  cbv zeta.
  assert (0 <= last_state w_boot < 4) as H by (cbn; lia).
  split; [exact H|]. split; [reflexivity|]. split; [reflexivity|].
  exact (X3_position_counts_steps json_reader
           [mkSample false true 1 (Some (Some ping_line));
            mkSample true true 2 None]
           w_boot 0 H eq_refl eq_refl).
Defined.

Lemma X4_steps_reported_or_pending_witness :
  let samples := [mkSample false true 1 (Some (Some (reset_line "5")));
                  mkSample true true 2 None] in
  let w' := snd (run json_reader samples w_boot) in
  0 <= last_state w_boot < 4
  /\ usb_data w_boot = true
  /\ run json_reader samples w_boot = (inl tt, w')
  /\ reported_total (tx_log w') + accumulated_delta w'
     = reported_total (tx_log w_boot) + accumulated_delta w_boot
       + net_delta (last_state w_boot) samples.
Proof.
  cbv zeta.
  assert (0 <= last_state w_boot < 4) as H by (cbn; lia).
  assert (run json_reader
            [mkSample false true 1 (Some (Some (reset_line "5")));
             mkSample true true 2 None] w_boot
          = (inl tt,
             snd (run json_reader
                    [mkSample false true 1 (Some (Some (reset_line "5")));
                     mkSample true true 2 None] w_boot))) as R
    by (vm_compute; reflexivity).
  split; [exact H|]. split; [reflexivity|]. split; [exact R|].
  exact (X4_steps_reported_or_pending json_reader
           [mkSample false true 1 (Some (Some (reset_line "5")));
            mkSample true true 2 None]
           w_boot _ H eq_refl R).
Defined.

Lemma X5_log_grows_by_protocol_messages_witness :
  let samples := [mkSample false true 1 (Some (Some ping_line));
                  mkSample true true 2 None] in
  let r := fst (run json_reader samples w_pending) in
  let w' := snd (run json_reader samples w_pending) in
  run json_reader samples w_pending = (r, w')
  /\ exists added,
       tx_log w' = (tx_log w_pending ++ added)%list
       /\ (List.length added <= 2 * List.length samples)%nat
       /\ Forall is_protocol_entry added.
Proof.
  cbv zeta.
  assert (run json_reader
            [mkSample false true 1 (Some (Some ping_line));
             mkSample true true 2 None] w_pending
          = (fst (run json_reader
                    [mkSample false true 1 (Some (Some ping_line));
                     mkSample true true 2 None] w_pending),
             snd (run json_reader
                    [mkSample false true 1 (Some (Some ping_line));
                     mkSample true true 2 None] w_pending))) as R
    by (vm_compute; reflexivity).
  split; [exact R|].
  exact (X5_log_grows_by_protocol_messages json_reader
           [mkSample false true 1 (Some (Some ping_line));
            mkSample true true 2 None]
           w_pending _ _ R).
Defined.

Lemma X6_reports_track_position_witness :
  let samples := [mkSample false true 1 (Some (Some ping_line));
                  mkSample true true 2 None] in
  0 <= last_state w_pending < 4
  /\ usb_data w_pending = true
  /\ forallb negb (tx_faults w_pending) = true
  /\ position w_pending = PInt 7
  /\ forallb (no_reset json_reader) samples = true
  /\ exists w' p',
       run json_reader samples w_pending = (inl tt, w')
       /\ position w' = PInt p'
       /\ p' - (delivered_total (tx_log w') + accumulated_delta w')
          = 7 - (delivered_total (tx_log w_pending)
                 + accumulated_delta w_pending).
Proof.
  cbv zeta.
  assert (0 <= last_state w_pending < 4) as H by (cbn; lia).
  split; [exact H|]. split; [reflexivity|]. split; [reflexivity|].
  split; [reflexivity|]. split; [reflexivity|].
  exact (X6_reports_track_position json_reader
           [mkSample false true 1 (Some (Some ping_line));
            mkSample true true 2 None]
           w_pending 7 H eq_refl eq_refl eq_refl eq_refl).
Defined.

Lemma X7_pass_without_port_witness :
  let w := mkWorld (PInt 7) 0 3 0 false false [] [] in
  let i := mkSample false true 1 (Some (Some (reset_line "5"))) in
  0 <= last_state w < 4
  /\ usb_data w = false
  /\ position w = PInt 7
  /\ exists w', loop_body json_reader i w = (inl tt, w')
                /\ tx_log w' = []
                /\ position w' = PInt 8
                /\ accumulated_delta w' = 0.
Proof.
  cbv zeta.
  assert (0 <= 0 < 4) as H by lia.
  split; [exact H|]. split; [reflexivity|]. split; [reflexivity|].
  exact (X7_pass_without_port json_reader
           (mkSample false true 1 (Some (Some (reset_line "5"))))
           (mkWorld (PInt 7) 0 3 0 false false [] []) 7 H eq_refl eq_refl).
Defined.

Lemma X8_bounce_cancels_witness :
  let i1 := mkSample false true 1 None in
  let i2 := mkSample false false (101 # 100) None in
  last_state w_boot = encoder_state false false
  /\ position w_boot = PInt 0
  /\ no_reset json_reader i1 = true
  /\ no_reset json_reader i2 = true
  /\ exists w2,
       run json_reader [i1; i2] w_boot = (inl tt, w2)
       /\ position w2 = PInt 0
       /\ last_state w2 = last_state w_boot
       /\ (usb_data w_boot = true ->
           reported_total (tx_log w2) + accumulated_delta w2
           = reported_total (tx_log w_boot) + accumulated_delta w_boot).
Proof.
  cbv zeta.
  split; [reflexivity|]. split; [reflexivity|].
  split; [reflexivity|]. split; [reflexivity|].
  exact (X8_bounce_cancels json_reader false false
           (mkSample false true 1 None)
           (mkSample false false (101 # 100) None)
           w_boot 0 eq_refl eq_refl eq_refl eq_refl eq_refl eq_refl).
Defined.

Lemma X10_double_step_resynchronises_witness :
  last_state w_boot = encoder_state (negb true) (negb true)
  /\ poll_encoder true true w_boot
     = (inl tt, set_last_state (encoder_state true true) w_boot).
Proof.
  split; [reflexivity|].
  exact (X10_double_step_resynchronises true true w_boot eq_refl).
Defined.

Lemma X11_blank_line_is_dropped_witness :
  forallb is_space (list_ascii_of_string "   ") = true
  /\ check_for_commands json_reader (Some (Some "   ")) w_boot = (inl tt, w_boot).
Proof.
  split; [reflexivity|].
  exact (X11_blank_line_is_dropped json_reader "   " w_boot eq_refl).
Defined.

Lemma X12_idle_pass_turns_led_off_witness :
  let w := set_led true w_boot in
  let i := mkSample false false 1 None in
  encoder_state (pin_a i) (pin_b i) = last_state w
  /\ led_value w = true
  /\ led_value (snd (loop_body json_reader i w)) = false.
Proof.
  cbv zeta. split; [reflexivity|]. split; [reflexivity|].
  exact (proj2 (X12_idle_pass_turns_led_off json_reader
                  (mkSample false false 1 None) (set_led true w_boot) eq_refl)).
Defined.

Lemma X13_unknown_fields_ignored_witness :
  String.eqb "id" "type" = false
  /\ String.eqb "id" "position" = false
  /\ String.eqb "id" "on" = false
  /\ handle_command (PDict ([("type", PStr "ping")] ++ [("id", PInt 1)])) w_boot
     = handle_command (PDict ([("type", PStr "ping")] ++ [])) w_boot.
Proof.
  split; [reflexivity|]. split; [reflexivity|]. split; [reflexivity|].
  exact (X13_unknown_fields_ignored [("type", PStr "ping")] [] "id" (PInt 1)
           w_boot eq_refl eq_refl eq_refl).
Defined.
